(** * Readiness analysis of Jira tickets: the two analyzers and their scoring

    A shallow embedding of
      - [scripts/analyze_readiness.py]       (module [Standard]) and
      - [scripts/analyze_readiness_fsec.py]  (module [FSEC]),
    the gap detectors, the category scores, the strengths and the verdict,
    followed by the properties the specification states about them.

    Conventions of the embedding:
      - a Python [str] is the list of its code points ([N]);
      - the scores are Python floats (and, for the FSEC technical score, an
        int) that only ever hold whole numbers, obtained from 70, 40, 20, 15
        and 5 by subtracting whole multiples of small constants: they are
        modelled as [Z];
      - the character tables of CPython ([str.lower], [str.isspace], the
        classes behind [\w], [\s], [\d] and case-insensitive matching of the
        [re] module) are not part of the repository: they are the class
        [UnicodeData], of which the analyzers are clients. *)

From Stdlib Require Import List ZArith NArith Bool Lia.
From Stdlib Require Import String Ascii DecimalString.
Import ListNotations.

Set Implicit Arguments.

(** ** Python strings *)

Definition char := N.
Definition str := list char.

Definition lit (s : string) : str := map N_of_ascii (list_ascii_of_string s).
Coercion lit : string >-> str.

Definition strs (l : list string) : list str := map lit l.

Open Scope string_scope.
Open Scope list_scope.
Open Scope Z_scope.

Module PyStr.

(** [a == b] on strings. *)
Fixpoint eqb (a b : str) : bool :=
  match a, b with
  | [], [] => true
  | x :: a', y :: b' => N.eqb x y && eqb a' b'
  | _, _ => false
  end.

(** [s.startswith(p)] *)
Fixpoint startswith (p s : str) : bool :=
  match p, s with
  | [], _ => true
  | _ :: _, [] => false
  | x :: p', y :: s' => N.eqb x y && startswith p' s'
  end.

(** [sub in s] *)
Fixpoint contains (sub s : str) : bool :=
  startswith sub s ||
  match s with
  | [] => false
  | _ :: s' => contains sub s'
  end.

(** [x in l] for a list of strings *)
Definition mem (x : str) (l : list str) : bool := existsb (eqb x) l.

(** [any(kw in s for kw in kws)] *)
Definition any_in (kws : list str) (s : str) : bool :=
  existsb (fun kw => contains kw s) kws.

(** [sep.join(l)] *)
Fixpoint join (sep : str) (l : list str) : str :=
  match l with
  | [] => []
  | [x] => x
  | x :: l' => x ++ sep ++ join sep l'
  end.

(** [len(s)] *)
Definition len (s : str) : Z := Z.of_nat (List.length s).

(** [str(n)] for a count *)
Definition of_nat (n : nat) : str :=
  lit (NilEmpty.string_of_uint (Nat.to_uint n)).

Definition newline : char := 10%N.
Definition dquote : char := 34%N.

(** The ASCII part of the character tables. *)
Definition is_ascii (c : char) : bool := (c <? 128)%N.

Definition ascii_lower (c : char) : char :=
  if ((65 <=? c) && (c <=? 90))%N then (c + 32)%N else c.

Definition ascii_space (c : char) : bool :=
  ((9 <=? c) && (c <=? 13) || (28 <=? c) && (c <=? 32))%N.

Definition ascii_decimal (c : char) : bool :=
  ((48 <=? c) && (c <=? 57))%N.

Definition ascii_word (c : char) : bool :=
  (ascii_decimal c || (65 <=? c) && (c <=? 90)
   || (97 <=? c) && (c <=? 122) || (c =? 95))%N.

End PyStr.

(** ** The character tables of the interpreter

    [str_lower] is [str.lower()], a function of the whole string (it may
    change the length and is context sensitive outside ASCII); [isspace]
    decides [str.strip()] and [\s]; [isword] is [\w], [isdecimal] is [\d];
    [ieq p c] says that the pattern character [p] matches the text character
    [c] under [re.IGNORECASE].  The two laws are what the proofs need to
    know of the tables: lowering an ASCII string lowers its letters A-Z and
    nothing else, and a character matches itself. *)
Class UnicodeData := {
  str_lower : str -> str;
  isspace : char -> bool;
  isword : char -> bool;
  isdecimal : char -> bool;
  ieq : char -> char -> bool;
  str_lower_ascii : forall s,
    forallb PyStr.is_ascii s = true -> str_lower s = map PyStr.ascii_lower s;
  ieq_refl : forall c, ieq c c = true
}.

(** The tables restricted to ASCII: every other character is caseless and is
    neither a space, a digit nor a word character. *)
#[refine] Instance ascii_tables : UnicodeData := {|
  str_lower := map PyStr.ascii_lower;
  isspace := PyStr.ascii_space;
  isword := PyStr.ascii_word;
  isdecimal := PyStr.ascii_decimal;
  ieq := fun p c => N.eqb (PyStr.ascii_lower p) (PyStr.ascii_lower c)
|}.
Proof.
  all: try reflexivity.
  intros c. apply N.eqb_refl.
Defined.

(** ** The fragment of Python's [re] the analyzers use

    Repetition only ever applies to a single character class in the source
    ([.*], [\s*], [\s+], [[A-Z]+], [\d+], [.{0,50}]), so [Rep] carries a
    class and its bounds.  Groups are only used for alternation. *)
Module Re.

Inductive cset :=
| Dot                         (* [.]  : anything but a newline *)
| DotAll                      (* [.] under re.DOTALL *)
| Space                       (* [\s] *)
| Digit                       (* [\d] *)
| Range (lo hi : char)        (* [[A-Z]] *)
| OneOf (l : list char).      (* [[-*...]] *)

Inductive regex :=
| Lit (c : char)
| Set_ (c : cset)
| Rep (c : cset) (lo : nat) (hi : option nat)   (* greedy [c{lo,hi}] *)
| Cat (a b : regex)
| Alt (a b : regex)
| WordB                       (* [\b] *)
| Bol.                        (* [^] under re.MULTILINE *)

(** A literal string, character by character. *)
Fixpoint word (w : str) : regex :=
  match w with
  | [] => Rep Dot 0 (Some 0%nat)
  | [c] => Lit c
  | c :: w' => Cat (Lit c) (word w')
  end.

(** [(a|b|...)] *)
Fixpoint alts (l : list str) : regex :=
  match l with
  | [] => Set_ (OneOf [])
  | [w] => word w
  | w :: l' => Alt (word w) (alts l')
  end.

Definition star (c : cset) : regex := Rep c 0 None.
Definition plus (c : cset) : regex := Rep c 1 None.

(** Concatenation of the pieces of a pattern, left to right. *)
Fixpoint seq (l : list regex) : regex :=
  match l with
  | [] => Rep Dot 0 (Some 0%nat)
  | [r] => r
  | r :: l' => Cat r (seq l')
  end.

Section Matcher.
Context {U : UnicodeData}.

(** [icase] is the flag re.IGNORECASE; in the source it only accompanies
    patterns made of literals, [.] and [\b]. *)
Variable icase : bool.

Definition in_cset (cs : cset) (x : char) : bool :=
  match cs with
  | Dot => negb (N.eqb x PyStr.newline)
  | DotAll => true
  | Space => isspace x
  | Digit => isdecimal x
  | Range lo hi => (lo <=? x)%N && (x <=? hi)%N
  | OneOf l => existsb (N.eqb x) l
  end.

Definition lit_match (p x : char) : bool :=
  if icase then ieq p x else N.eqb p x.

Definition is_w (c : option char) : bool :=
  match c with
  | Some x => isword x
  | None => false
  end.

(** [\b]: exactly one side is a word character; the ends of the string
    count as non-word. *)
Definition at_boundary (prev : option char) (s : str) : bool :=
  xorb (is_w prev) (is_w (hd_error s)).

Definition room (hi : option nat) : bool :=
  match hi with
  | Some O => false
  | _ => true
  end.

Definition dec (hi : option nat) : option nat := option_map pred hi.

Section Rep.
Variable A : Type.
Variable cs : cset.

(** Greedy repetition with backtracking: first try to take one more
    character, and only when everything after that fails, continue
    from here (if the lower bound is met). *)
Fixpoint rep (lo : nat) (hi : option nat) (prev : option char) (s : str)
         (k : option char -> str -> option A) {struct s} : option A :=
  let here :=
    match lo with
    | O => k prev s
    | S _ => None
    end in
  match s with
  | x :: s' =>
      if room hi && in_cset cs x then
        match rep (pred lo) (dec hi) (Some x) s' k with
        | Some r => Some r
        | None => here
        end
      else here
  | [] => here
  end.
End Rep.

(** The backtracking matcher: [exec r prev s k] matches [r] at the
    position whose previous character is [prev] and whose rest is [s],
    and passes the position it reaches to [k]; alternatives are tried in
    the order the [re] module tries them. *)
Fixpoint exec (A : Type) (r : regex) (prev : option char) (s : str)
         (k : option char -> str -> option A) : option A :=
  match r with
  | Lit p =>
      match s with
      | x :: s' => if lit_match p x then k (Some x) s' else None
      | [] => None
      end
  | Set_ cs =>
      match s with
      | x :: s' => if in_cset cs x then k (Some x) s' else None
      | [] => None
      end
  | Rep cs lo hi => rep cs lo hi prev s k
  | Cat a b => exec a prev s (fun p' s' => exec b p' s' k)
  | Alt a b =>
      match exec a prev s k with
      | Some r => Some r
      | None => exec b prev s k
      end
  | WordB => if at_boundary prev s then k prev s else None
  | Bol =>
      match prev with
      | None => k prev s
      | Some c => if N.eqb c PyStr.newline then k prev s else None
      end
  end.

(** The text of the match that starts at this position, if there is
    one. *)
Definition match_here (r : regex) (prev : option char) (s : str)
  : option str :=
  exec r prev s
    (fun _ rest => Some (firstn (List.length s - List.length rest) s)).

(** Leftmost match, scanning the start positions from left to right
    (the end of the string is a start position too). *)
Fixpoint scan (r : regex) (prev : option char) (s : str) : option str :=
  match match_here r prev s with
  | Some m => Some m
  | None =>
      match s with
      | [] => None
      | x :: s' => scan r (Some x) s'
      end
  end.

(** [re.search(r, s)]: the matched text, [m.group(0)]. *)
Definition search (r : regex) (s : str) : option str := scan r None s.

(** [bool(re.search(r, s))] *)
Definition found (r : regex) (s : str) : bool :=
  match search r s with
  | Some _ => true
  | None => false
  end.

End Matcher.
End Re.

(** [s.strip()] *)
Section Strip.
Context {U : UnicodeData}.

Fixpoint lstrip (s : str) : str :=
  match s with
  | x :: s' => if isspace x then lstrip s' else s
  | [] => []
  end.

Definition rstrip (s : str) : str := rev (lstrip (rev s)).

Definition strip (s : str) : str := rstrip (lstrip s).
End Strip.

(** ** Data model *)

(** [class Gap] (the same dataclass in both scripts); category and severity
    are plain strings in the source. *)
Record Gap := {
  category : str;      (* requirements, technical, testing, context *)
  severity : str;      (* HIGH, MEDIUM, LOW *)
  title : str;
  description : str;
  questions : list str;
  actions : list str
}.

(** What the analyzers read of the issue the client returns.  [None] stands
    for a key that is absent (for the description also for a null value, and
    for the issue type and the status also for a missing name). *)
Record IssueLink := {
  link_type : str;
  link_key : str;
  link_status : str
}.

Record Comment := {
  body : option str                    (* [c.get('body', '')] *)
}.

Record Fields := {
  f_summary : option str;              (* [fields.get('summary', '')] *)
  f_description : option str;          (* [.get('description', '') or ''] *)
  f_issuetype : option str;            (* [...get('name', 'Unknown')] *)
  f_status : option str;
  f_comment : option (list Comment);   (* [fields['comment']['comments']] *)
  f_issuelinks : list IssueLink        (* [fields.get('issuelinks', [])] *)
}.

Record Issue := {
  fields : Fields
}.

(** The Jira client, as far as the analyzers use it: [client.issue(key)]. *)
Definition Jira := str -> Issue.

Definition get (A : Type) (o : option A) (default : A) : A :=
  match o with
  | Some v => v
  | None => default
  end.

(** [sum(1 for g in gaps if p(g))] *)
Definition count (p : Gap -> bool) (gaps : list Gap) : Z :=
  Z.of_nat (List.length (filter p gaps)).

Definition in_category (c : string) (g : Gap) : bool :=
  PyStr.eqb (category g) c.

Definition has_severity (v : string) (g : Gap) : bool :=
  PyStr.eqb (severity g) v.

(** The truth value of a list: [if l:] *)
Definition nonempty (A : Type) (l : list A) : bool :=
  match l with
  | [] => false
  | _ :: _ => true
  end.

(** [if c: strengths.append(label)] *)
Definition strength (c : bool) (label : string) : list str :=
  if c then [lit label] else [].

(** [f'"{s}"'] *)
Definition quoted (s : str) : str := PyStr.dquote :: s ++ [PyStr.dquote].

(** The text fields every analysis starts from. *)
Definition comment_bodies (f : Fields) : list str :=
  match f_comment f with
  | Some cs => map (fun c => get (body c) []) cs
  | None => []
  end.

Definition text_of (summary description : str) (comments : list str) : str :=
  summary ++ [PyStr.newline] ++ description ++ [PyStr.newline]
  ++ PyStr.join [PyStr.newline] comments.

(** ** [analyze_readiness.py]: the general profile *)
Module Standard.

Record ReadinessReport := {
  issue_key : str;
  summary : str;
  issue_type : str;
  status : str;
  requirements_score : Z;    (* 0-70 *)
  technical_score : Z;       (* 0-20 *)
  testing_score : Z;         (* 0-5 *)
  context_score : Z;         (* 0-5 *)
  total_score : Z;           (* 0-100 *)
  gaps : list Gap;
  strengths : list str;
  ready_for_pointing : bool
}.

Definition VAGUE_WORDS : list str :=
  strs ["maybe"; "probably"; "might"; "could"; "possibly";
        "something like"; "similar to"; "kind of"; "etc"; "and so on"].
Definition INCOMPLETE_MARKERS : list str :=
  strs ["TBD"; "TODO"; "???"; "unclear"; "..."].
Definition AC_KEYWORDS : list str :=
  strs ["acceptance criteria"; "AC:"; "definition of done";
        "success criteria"; "given"; "when"; "then"].
Definition TECH_KEYWORDS : list str :=
  strs ["api"; "endpoint"; "database"; "table"; "schema";
        "component"; "service"; "architecture"].
Definition TEST_KEYWORDS : list str :=
  strs ["test"; "happy path"; "edge case"; "error handling";
        "scenario"; "verify"].
Definition SECURITY_KEYWORDS : list str :=
  strs ["password"; "token"; "auth"; "permission"; "pii";
        "gdpr"; "encryption"; "security"].

(** The patterns of the detectors. *)

(** [r'\bgiven\b.*\bwhen\b.*\bthen\b'] with re.DOTALL *)
Definition gwt_pattern : Re.regex :=
  Re.seq [Re.WordB; Re.word "given"; Re.WordB; Re.star Re.DotAll;
          Re.WordB; Re.word "when"; Re.WordB; Re.star Re.DotAll;
          Re.WordB; Re.word "then"; Re.WordB].

(** The class between the brackets of the two list patterns, as the
    file has it: [-], [*], U+201A, U+00C4 and U+00A2. *)
Definition bullet : Re.cset := Re.OneOf [45; 42; 8218; 196; 162]%N.

(** [r'[-*...]\s*\['] *)
Definition checkbox_pattern : Re.regex :=
  Re.seq [Re.Set_ bullet; Re.star Re.Space; Re.Lit 91%N].

(** [r'^\s*[-*...]\s+'] with re.MULTILINE *)
Definition bullet_pattern : Re.regex :=
  Re.seq [Re.Bol; Re.star Re.Space; Re.Set_ bullet; Re.plus Re.Space].

(** [rf'.{{0,50}}{re.escape(word)}.{{0,50}}'] *)
Definition context_pattern (w : str) : Re.regex :=
  Re.seq [Re.Rep Re.Dot 0 (Some 50%nat); Re.word w;
          Re.Rep Re.Dot 0 (Some 50%nat)].

(** [r'\b(depends on|blocked by|requires|needs|after)\b'] *)
Definition dep_pattern : Re.regex :=
  Re.seq [Re.WordB;
          Re.alts (strs ["depends on"; "blocked by"; "requires"; "needs";
                         "after"]);
          Re.WordB].

(** [r'\b([A-Z]+-\d+)\b'] *)
Definition ticket_pattern : Re.regex :=
  Re.seq [Re.WordB; Re.plus (Re.Range 65 90)%N; Re.Lit 45%N;
          Re.plus Re.Digit; Re.WordB].

(** [r'\b(also|additionally|we should also|another thing|plus)\b'] *)
Definition additive_pattern : Re.regex :=
  Re.seq [Re.WordB;
          Re.alts (strs ["also"; "additionally"; "we should also";
                         "another thing"; "plus"]);
          Re.WordB].

Section Analyzer.
Context {U : UnicodeData}.

Definition missing_ac_gap : Gap := {|
  category := "requirements";
  severity := "HIGH";
  title := "Missing Acceptance Criteria";
  description :=
    lit "No clear definition of " ++ quoted "done"
    ++ lit ". What specific, testable conditions must be met?";
  questions := strs [
    "What are the success criteria?";
    "How will we know this is working correctly?";
    "What edge cases must be handled?"];
  actions := strs [
    "Schedule 15-min session with PO to define AC";
    "Use format: Given [context], When [action], Then [outcome]";
    "Document at least 2-3 criteria for features"]
|}.

(** Check for acceptance criteria. *)
Definition _check_acceptance_criteria (description issue_type : str)
  : list Gap :=
  let desc_lower := str_lower description in
  let has_ac_section := PyStr.any_in AC_KEYWORDS desc_lower in
  let has_gwt_format := Re.found false gwt_pattern desc_lower in
  let has_criteria_list :=
    Re.found false checkbox_pattern description
    || Re.found false bullet_pattern description in
  if negb (has_ac_section || has_gwt_format || has_criteria_list) then
    if negb (PyStr.mem (str_lower issue_type)
               (strs ["bug"; "incident"; "hotfix"]))
    then [missing_ac_gap]
    else []
  else [].

Definition vague_gap (examples : list str) : Gap := {|
  category := "requirements";
  severity := "HIGH";
  title := "Vague or Ambiguous Requirements";
  description :=
    lit "Found ambiguous language: " ++ PyStr.join ", " examples;
  questions := strs [
    "What are the specific requirements?";
    "Can we remove uncertainty and be more precise?";
    "What decisions need to be made?"];
  actions := strs [
    "Convert vague statements to specific questions";
    "Assign questions to stakeholders for answers";
    "Update ticket with specific requirements"]
|}.

(** The first loop of [_check_vague_language]: for each vague word
    found in the lowered text, the quoted context of its first
    case-insensitive match in the text. *)
Definition found_vague (text : str) : list str :=
  let text_lower := str_lower text in
  flat_map
    (fun word =>
       if PyStr.contains word text_lower then
         match Re.search true (context_pattern word) text with
         | Some m => [quoted (strip m)]
         | None => []
         end
       else [])
    VAGUE_WORDS.

(** The second loop: the markers that occur in the text. *)
Definition found_incomplete (text : str) : list str :=
  filter (fun marker => PyStr.contains marker text) INCOMPLETE_MARKERS.

(** Check for vague or ambiguous language. *)
Definition _check_vague_language (text : str) : list Gap :=
  let found_vague := found_vague text in
  let found_incomplete := found_incomplete text in
  if nonempty found_vague || nonempty found_incomplete then
    let examples :=
      if nonempty found_vague then firstn 3 found_vague
      else firstn 3 found_incomplete in
    [vague_gap examples]
  else [].

Definition no_technical_context_gap : Gap := {|
  category := "technical";
  severity := "MEDIUM";
  title := "No Technical Context";
  description := "No discussion of implementation approach.";
  questions := strs [
    "Which components/services are affected?";
    "Are new API endpoints needed?";
    "Are database schema changes required?";
    "What is the high-level technical approach?"];
  actions := strs [
    "Tech lead to sketch approach in ticket";
    "Identify 2-3 possible approaches if unclear";
    "Note any major technical decisions needed";
    "List affected components and services"]
|}.

(** Check for technical context and approach. *)
Definition _check_technical_context (description issue_type : str)
  : list Gap :=
  if PyStr.mem (str_lower issue_type) (strs ["bug"; "incident"; "hotfix"])
  then []
  else
    let desc_lower := str_lower description in
    let has_tech_keywords := PyStr.any_in TECH_KEYWORDS desc_lower in
    let has_tech_section :=
      PyStr.contains "technical" desc_lower
      && (PyStr.contains "approach" desc_lower
          || PyStr.contains "design" desc_lower
          || PyStr.contains "notes" desc_lower) in
    if negb (has_tech_keywords || has_tech_section)
    then [no_technical_context_gap]
    else [].

Definition missing_dependencies_gap : Gap := {|
  category := "technical";
  severity := "MEDIUM";
  title := "Missing Dependencies";
  description := "Description mentions dependencies but no linked tickets.";
  questions := strs [
    "Which tickets must be completed first?";
    "What are the blocking dependencies?";
    "Are there external service dependencies?"];
  actions := [
    lit "Link to dependent tickets";
    lit "Add " ++ quoted "blocked by" ++ lit " relationships if applicable";
    lit "Document any external service dependencies";
    lit "Clarify which dependencies are hard blockers"]
|}.

(** Check for missing or unlinked dependencies. *)
Definition _check_dependencies (text : str) (issue : Issue) : list Gap :=
  let has_dep_mention := Re.found true dep_pattern text in
  let ticket_refs := Re.found false ticket_pattern text in
  let issue_links := f_issuelinks (fields issue) in
  if (has_dep_mention || ticket_refs) && negb (nonempty issue_links)
  then [missing_dependencies_gap]
  else [].

Definition no_test_scenarios_gap : Gap := {|
  category := "testing";
  severity := "LOW";
  title := "No Test Scenarios";
  description := "No discussion of how to verify this works.";
  questions := strs [
    "What is the happy path scenario?";
    "What edge cases need testing?";
    "What error conditions should be tested?";
    "What test data is needed?"];
  actions := strs [
    "Document at least happy path + 2 edge cases";
    "Specify error handling requirements";
    "Note any special test data needs"]
|}.

(** Check for test scenarios. *)
Definition _check_test_scenarios (text issue_type : str) : list Gap :=
  let text_lower := str_lower text in
  let has_test_keywords := PyStr.any_in TEST_KEYWORDS text_lower in
  let has_test_section :=
    PyStr.contains "test" text_lower
    && (PyStr.contains "scenario" text_lower
        || PyStr.contains "case" text_lower
        || PyStr.contains "plan" text_lower) in
  if negb (has_test_keywords || has_test_section) then
    if negb (PyStr.mem (str_lower issue_type) (strs ["spike"; "research"]))
    then [no_test_scenarios_gap]
    else []
  else [].

Definition scope_gap (comment_additions : nat) : Gap := {|
  category := "requirements";
  severity := "MEDIUM";
  title := "Scope Growing in Comments";
  description :=
    lit "Found " ++ PyStr.of_nat comment_additions
    ++ lit " comments adding requirements. May need splitting.";
  questions := strs [
    "What is the current scope?";
    "Should this be split into multiple tickets?";
    "What is the minimum viable implementation?"];
  actions := strs [
    "Review all comments for scope changes";
    "Update description to match current understanding";
    "Consider splitting into multiple tickets";
    "Get PO to confirm final scope"]
|}.

(** Check for scope creep in comments. *)
Definition _check_scope_creep (comments : list str) : list Gap :=
  if (List.length comments <? 5)%nat then []
  else
    let comment_additions :=
      List.length (filter (Re.found true additive_pattern) comments) in
    if (3 <=? comment_additions)%nat
    then [scope_gap comment_additions]
    else [].

Definition security_review_gap : Gap := {|
  category := "context";
  severity := "HIGH";
  title := "Security Review Needed";
  description := "Ticket involves sensitive data but lacks security context.";
  questions := strs [
    "What are the security requirements?";
    "Are there compliance considerations (GDPR, SOC2)?";
    "How is sensitive data protected?";
    "What audit logging is needed?"];
  actions := strs [
    "Schedule security review";
    "Document security requirements";
    "Add security-specific acceptance criteria";
    "Flag for security team review"]
|}.

(** Check for security context where needed. *)
Definition _check_security_context (text : str) : list Gap :=
  let text_lower := str_lower text in
  let has_security_keywords := PyStr.any_in SECURITY_KEYWORDS text_lower in
  let has_security_section :=
    PyStr.contains "security" text_lower
    || PyStr.contains "compliance" text_lower in
  if has_security_keywords && negb has_security_section
  then [security_review_gap]
  else [].

(** Identify positive aspects of the ticket. *)
Definition _identify_strengths (description all_text : str) (issue : Issue)
  : list str :=
  strength (PyStr.any_in AC_KEYWORDS (str_lower description))
    "Has acceptance criteria"
  ++ strength (PyStr.any_in TEST_KEYWORDS (str_lower all_text))
       "Test scenarios discussed"
  ++ strength (PyStr.any_in TECH_KEYWORDS (str_lower description))
       "Technical context provided"
  ++ strength (nonempty (f_issuelinks (fields issue)))
       "Dependencies linked"
  ++ strength (200 <? PyStr.len description)
       "Detailed description".

(** Calculate requirements score (0-70). *)
Definition _calculate_requirements_score (gaps : list Gap) : Z :=
  let req_gaps := filter (in_category "requirements") gaps in
  let high_severity := count (has_severity "HIGH") req_gaps in
  let medium_severity := count (has_severity "MEDIUM") req_gaps in
  let score := 70 in
  let score := score - high_severity * 25 in
  let score := score - medium_severity * 10 in
  Z.max 0 score.

(** Calculate technical score (0-20). *)
Definition _calculate_technical_score (gaps : list Gap) : Z :=
  let tech_gaps := filter (in_category "technical") gaps in
  let high_severity := count (has_severity "HIGH") tech_gaps in
  let medium_severity := count (has_severity "MEDIUM") tech_gaps in
  let score := 20 in
  let score := score - high_severity * 15 in
  let score := score - medium_severity * 8 in
  Z.max 0 score.

(** Calculate testing score (0-5). *)
Definition _calculate_testing_score (gaps : list Gap) : Z :=
  let test_gaps := filter (in_category "testing") gaps in
  if nonempty test_gaps then 0 else 5.

(** Calculate context score (0-5). *)
Definition _calculate_context_score (gaps : list Gap) : Z :=
  let ctx_gaps := filter (in_category "context") gaps in
  let high_severity := count (has_severity "HIGH") ctx_gaps in
  let score := 5 in
  let score := score - high_severity * 5 in
  Z.max 0 score.

(** The gap detection of [analyze], in the order it runs. *)
Definition detect (description all_text issue_type : str)
           (comments : list str) (issue : Issue) : list Gap :=
  _check_acceptance_criteria description issue_type
  ++ _check_vague_language all_text
  ++ _check_technical_context description issue_type
  ++ _check_dependencies all_text issue
  ++ _check_test_scenarios all_text issue_type
  ++ _check_scope_creep comments
  ++ _check_security_context all_text.

(** Analyze a ticket and return readiness report. *)
Definition analyze (client : Jira) (issue_key : str) : ReadinessReport :=
  let issue := client issue_key in
  let fields := fields issue in
  let description := get (f_description fields) [] in
  let summary := get (f_summary fields) [] in
  let issue_type := get (f_issuetype fields) (lit "Unknown") in
  let status := get (f_status fields) (lit "Unknown") in
  let comments := comment_bodies fields in
  let all_text := text_of summary description comments in
  let gaps := detect description all_text issue_type comments issue in
  let strengths := _identify_strengths description all_text issue in
  let req_score := _calculate_requirements_score gaps in
  let tech_score := _calculate_technical_score gaps in
  let test_score := _calculate_testing_score gaps in
  let ctx_score := _calculate_context_score gaps in
  let total_score := req_score + tech_score + test_score + ctx_score in
  let ready := (75 <=? total_score) && (50 <=? req_score) in
  {| issue_key := issue_key;
     summary := summary;
     issue_type := issue_type;
     status := status;
     requirements_score := req_score;
     technical_score := tech_score;
     testing_score := test_score;
     context_score := ctx_score;
     total_score := total_score;
     gaps := gaps;
     strengths := strengths;
     ready_for_pointing := ready |}.

End Analyzer.
End Standard.

(** ** [analyze_readiness_fsec.py]: the FSEC profile *)
Module FSEC.

Record ReadinessReport := {
  issue_key : str;
  summary : str;
  issue_type : str;
  status : str;
  requirements_score : Z;    (* 0-40 (reduced from 70) *)
  technical_score : Z;       (* 0-40 (increased from 20) *)
  context_score : Z;         (* 0-15 (increased from 5) *)
  testing_score : Z;         (* 0-5 (same) *)
  total_score : Z;           (* 0-100 *)
  gaps : list Gap;
  strengths : list str;
  ready_for_pointing : bool;
  mode : str
}.

Definition CRITICAL_VAGUE : list str :=
  strs ["TBD"; "TODO"; "???"; "unclear"; "figure it out"].
Definition PROBLEM_INDICATORS : list str :=
  strs ["problem"; "issue"; "currently"; "need to"; "should";
        "request"; "broken"; "failing"].
Definition AWS_KEYWORDS : list str :=
  strs ["account"; "lambda"; "s3"; "iam"; "api"; "policy"; "kms";
        "ec2"; "vpc"; "scp"; "role"; "cloudformation"; "terraform"].
Definition IMPLEMENTATION_KEYWORDS : list str :=
  strs ["create"; "update"; "modify"; "deploy"; "configure";
        "implement"; "add"; "remove"; "migrate"; "move"].
Definition SECURITY_KEYWORDS : list str :=
  strs ["iam"; "policy"; "role"; "permission"; "auth"; "encryption";
        "kms"; "security"; "compliance"].
Definition TEST_KEYWORDS : list str :=
  strs ["test"; "verify"; "validate"; "check"].

(** [rf'.{{0,50}}{re.escape(marker)}.{{0,50}}'] *)
Definition context_pattern (w : str) : Re.regex :=
  Re.seq [Re.Rep Re.Dot 0 (Some 50%nat); Re.word w;
          Re.Rep Re.Dot 0 (Some 50%nat)].

(** [r'\b[A-Z]+-\d+\b'] *)
Definition jira_pattern : Re.regex :=
  Re.seq [Re.WordB; Re.plus (Re.Range 65 90)%N; Re.Lit 45%N;
          Re.plus Re.Digit; Re.WordB].

Section Analyzer.
Context {U : UnicodeData}.

Definition missing_problem_gap : Gap := {|
  category := "requirements";
  severity := "HIGH";
  title := "Missing Problem Statement";
  description := "No clear description of what needs to change or why.";
  questions := strs ["What problem are we solving?"; "Who requested this?"];
  actions := strs ["Add context about what needs to change";
                   "Link to Slack thread or related ticket"]
|}.

(** Check for clear problem or request. *)
Definition _check_problem_statement (description : str) : list Gap :=
  let desc_lower := str_lower description in
  let has_problem := PyStr.any_in PROBLEM_INDICATORS desc_lower in
  let has_substance := 50 <? PyStr.len (strip description) in
  if negb (has_problem || has_substance)
  then [missing_problem_gap]
  else [].

Definition critical_gap (found_critical : list str) : Gap := {|
  category := "requirements";
  severity := "HIGH";
  title := "Critical Ambiguity";
  description :=
    lit "Found blockers: " ++ PyStr.join ", " (firstn 2 found_critical);
  questions := strs ["What needs to be decided before we can estimate?"];
  actions := strs ["Convert TBD/TODO into specific questions";
                   "Assign owners to open questions"]
|}.

(** The loop of [_check_critical_ambiguity]: for each marker that occurs
    in the text, the quoted context of its first case-insensitive
    match. *)
Definition found_critical (text : str) : list str :=
  flat_map
    (fun marker =>
       if PyStr.contains marker text then
         match Re.search true (context_pattern marker) text with
         | Some m => [quoted (strip m)]
         | None => []
         end
       else [])
    CRITICAL_VAGUE.

(** Check for CRITICAL vague language (TBD, ???) but not normal
    uncertainty. *)
Definition _check_critical_ambiguity (text : str) : list Gap :=
  let found_critical := found_critical text in
  if nonempty found_critical
  then [critical_gap found_critical]
  else [].

Definition limited_aws_gap : Gap := {|
  category := "technical";
  severity := "MEDIUM";
  title := "Limited AWS Context";
  description := "Minimal technical details about affected systems.";
  questions := strs ["Which AWS accounts/services are affected?";
                     "What infrastructure components need changes?"];
  actions := strs ["List affected accounts, services, or modules";
                   "Add links to relevant code or AWS console"]
|}.

(** Check for AWS/infrastructure context. *)
Definition _check_aws_context (description issue_type : str) : list Gap :=
  if PyStr.mem (str_lower issue_type) (strs ["spike"; "research"])
  then []
  else
    let desc_lower := str_lower description in
    let has_aws := PyStr.any_in AWS_KEYWORDS desc_lower in
    if negb has_aws && (PyStr.len description <? 100)
    then [limited_aws_gap]
    else [].

Definition unclear_implementation_gap : Gap := {|
  category := "technical";
  severity := "MEDIUM";
  title := "Unclear Implementation";
  description := "No clear description of what to build or change.";
  questions := strs ["What specifically needs to be created/modified?";
                     "What is the high-level approach?"];
  actions := strs ["Add implementation details";
                   "Describe the solution approach"]
|}.

(** Check for clear implementation approach. *)
Definition _check_implementation_clarity (description : str) : list Gap :=
  let desc_lower := str_lower description in
  let has_action := PyStr.any_in IMPLEMENTATION_KEYWORDS desc_lower in
  let has_substance := 100 <? PyStr.len description in
  if negb has_action && negb has_substance
  then [unclear_implementation_gap]
  else [].

Definition no_references_gap : Gap := {|
  category := "context";
  severity := "LOW";
  title := "No References";
  description :=
    "Could benefit from links to code, Slack, or related tickets.";
  questions := [];
  actions := strs ["Add link to relevant GitHub repo/file";
                   "Link to Slack discussion if applicable"]
|}.

(** Check for links to code, Slack, or related resources. *)
Definition _check_references (description : str) : list Gap :=
  let has_github := PyStr.contains "github.com" description in
  let has_slack := PyStr.contains "slack.com" description in
  let has_jira := Re.found false jira_pattern description in
  if negb (has_github || has_slack || has_jira)
     && (PyStr.len description <? 100)
  then [no_references_gap]
  else [].

Definition security_gap : Gap := {|
  category := "context";
  severity := "MEDIUM";
  title := "Security Implications";
  description := "Involves IAM/policies but lacks security discussion.";
  questions := strs ["What are the security implications?";
                     "What permissions are being granted?"];
  actions := strs ["Add brief security context";
                   "Note if security review needed"]
|}.

(** Check for security context when needed. *)
Definition _check_security_context (text : str) : list Gap :=
  let text_lower := str_lower text in
  let has_security_keywords := PyStr.any_in SECURITY_KEYWORDS text_lower in
  let has_security_section :=
    PyStr.contains "security" text_lower
    || PyStr.contains "iam policy" text_lower in
  if has_security_keywords && negb has_security_section
     && (PyStr.len text <? 300)
  then [security_gap]
  else [].

(** Identify positive aspects of the ticket. *)
Definition _identify_strengths (description all_text : str) (issue : Issue)
  : list str :=
  strength (PyStr.any_in PROBLEM_INDICATORS (str_lower description))
    "Clear problem or request"
  ++ strength (PyStr.any_in AWS_KEYWORDS (str_lower description))
       "AWS infrastructure context"
  ++ strength (PyStr.any_in IMPLEMENTATION_KEYWORDS (str_lower description))
       "Clear implementation approach"
  ++ strength (PyStr.contains "github.com" description)
       "Code references"
  ++ strength (PyStr.contains "slack.com" description)
       "Slack thread linked"
  ++ strength (nonempty (f_issuelinks (fields issue)))
       "Related tickets linked"
  ++ strength (200 <? PyStr.len description)
       "Detailed description".

(** Calculate requirements score (0-40) based on FSEC patterns. *)
Definition _calculate_requirements_score (description : str)
           (gaps : list Gap) : Z :=
  let score := 40 in
  let req_gaps := filter (in_category "requirements") gaps in
  let high_severity := count (has_severity "HIGH") req_gaps in
  let medium_severity := count (has_severity "MEDIUM") req_gaps in
  let score := score - high_severity * 15 in
  let score := score - medium_severity * 5 in
  Z.max 0 score.

(** Calculate technical score (0-40) with positive scoring for FSEC
    elements. *)
Definition _calculate_technical_score (description : str) (issue : Issue)
           (gaps : list Gap) : Z :=
  let score := 0 in
  let desc_lower := str_lower description in
  let score :=
    if PyStr.any_in AWS_KEYWORDS desc_lower then score + 15 else score in
  let score :=
    if PyStr.any_in IMPLEMENTATION_KEYWORDS desc_lower
    then score + 15 else score in
  let has_refs :=
    PyStr.contains "github.com" description
    || PyStr.contains "slack.com" description
    || Re.found false jira_pattern description in
  let score := if has_refs then score + 10 else score in
  let tech_gaps := filter (in_category "technical") gaps in
  let medium_severity := count (has_severity "MEDIUM") tech_gaps in
  let score := score - medium_severity * 5 in
  Z.min 40 (Z.max 0 score).

(** Calculate context score (0-15). *)
Definition _calculate_context_score (description : str) (gaps : list Gap)
  : Z :=
  let score := 15 in
  let ctx_gaps := filter (in_category "context") gaps in
  let high_severity := count (has_severity "HIGH") ctx_gaps in
  let medium_severity := count (has_severity "MEDIUM") ctx_gaps in
  let low_severity := count (has_severity "LOW") ctx_gaps in
  let score := score - high_severity * 10 in
  let score := score - medium_severity * 5 in
  let score := score - low_severity * 2 in
  Z.max 0 score.

(** Calculate testing score (0-5) - lenient for FSEC. *)
Definition _calculate_testing_score (text : str) : Z :=
  let text_lower := str_lower text in
  let has_test_mention := PyStr.any_in TEST_KEYWORDS text_lower in
  if has_test_mention || PyStr.contains "verify" text_lower
  then 5
  else 3.

(** The gap detection of [analyze], in the order it runs. *)
Definition detect (description all_text issue_type : str) : list Gap :=
  _check_problem_statement description
  ++ _check_critical_ambiguity all_text
  ++ _check_aws_context description issue_type
  ++ _check_implementation_clarity description
  ++ _check_references description
  ++ _check_security_context all_text.

(** Analyze a ticket using FSEC-specific criteria. *)
Definition analyze (client : Jira) (issue_key : str) : ReadinessReport :=
  let issue := client issue_key in
  let fields := fields issue in
  let description := get (f_description fields) [] in
  let summary := get (f_summary fields) [] in
  let issue_type := get (f_issuetype fields) (lit "Unknown") in
  let status := get (f_status fields) (lit "Unknown") in
  let comments := comment_bodies fields in
  let all_text := text_of summary description comments in
  let gaps := detect description all_text issue_type in
  let strengths := _identify_strengths description all_text issue in
  let req_score := _calculate_requirements_score description gaps in
  let tech_score := _calculate_technical_score description issue gaps in
  let ctx_score := _calculate_context_score description gaps in
  let test_score := _calculate_testing_score all_text in
  let total_score := req_score + tech_score + ctx_score + test_score in
  let ready := (60 <=? total_score) && (25 <=? req_score) in
  {| issue_key := issue_key;
     summary := summary;
     issue_type := issue_type;
     status := status;
     requirements_score := req_score;
     technical_score := tech_score;
     context_score := ctx_score;
     testing_score := test_score;
     total_score := total_score;
     gaps := gaps;
     strengths := strengths;
     ready_for_pointing := ready;
     mode := "FSEC" |}.

End Analyzer.
End FSEC.

(** ** Vocabulary of the properties *)

(** The text fields [analyze] extracts from the issue of a client. *)
Definition description_of (client : Jira) (issue_key : str) : str :=
  get (f_description (fields (client issue_key))) [].

Definition summary_of (client : Jira) (issue_key : str) : str :=
  get (f_summary (fields (client issue_key))) [].

Definition type_of (client : Jira) (issue_key : str) : str :=
  get (f_issuetype (fields (client issue_key))) (lit "Unknown").

Definition comments_of (client : Jira) (issue_key : str) : list str :=
  comment_bodies (fields (client issue_key)).

Definition all_text_of (client : Jira) (issue_key : str) : str :=
  text_of (summary_of client issue_key) (description_of client issue_key)
    (comments_of client issue_key).

(** The values the comments of [class Gap] list. *)
Definition known_categories : list str :=
  strs ["requirements"; "technical"; "testing"; "context"].

Definition known_severities : list str :=
  strs ["HIGH"; "MEDIUM"; "LOW"].

Definition known_category (g : Gap) : bool :=
  PyStr.mem (category g) known_categories.

Definition known_severity (g : Gap) : bool :=
  PyStr.mem (severity g) known_severities.

(** A text without any character of a kind. *)
Definition lacks (p : char -> bool) (s : str) : Prop :=
  existsb p s = false.

(** A category without gaps in a gap list. *)
Definition no_gaps_in (c : string) (gaps : list Gap) : Prop :=
  filter (in_category c) gaps = [].

(** A gap of the requirements category whose severity is none of HIGH,
    MEDIUM and LOW, and one whose category is none of the four. *)
Definition critical_severity_gap : Gap := {|
  category := "requirements";
  severity := "CRITICAL";
  title := "Release blocked";
  description := "Severity outside the three levels.";
  questions := [];
  actions := []
|}.

Definition performance_gap : Gap := {|
  category := "performance";
  severity := "HIGH";
  title := "No latency budget";
  description := "Category outside the four categories.";
  questions := [];
  actions := []
|}.

(** ** Tickets to run the analyzers on *)

Definition ticket (summary description issue_type : string)
           (comments : list string) : Issue :=
  {| fields :=
      {| f_summary := Some (lit summary);
         f_description := Some (lit description);
         f_issuetype := Some (lit issue_type);
         f_status := Some (lit "Open");
         f_comment := Some (map (fun c => {| body := Some (lit c) |}) comments);
         f_issuelinks := [] |} |}.

(** A tracker that holds one ticket. *)
Definition tracker (i : Issue) : Jira := fun _ => i.

(** A task with a summary only. *)
Definition bare_task : Issue := ticket "Rotate keys" "" "Task" [].

(** The same as a story. *)
Definition bare_story : Issue := ticket "Rotate keys" "" "Story" [].

(** A story that no detector of either profile objects to. *)
Definition groomed_story : Issue :=
  ticket "Retry the export"
    ("Currently the export api fails. Given a request, when it is sent, "
     ++ "then we test the reply. See github.com/acme/export")%string
    "Story" [].

(** A task whose rollout is left open. *)
Definition open_ended_task : Issue :=
  ticket "Rotate keys"
    "Given a key, when it expires, then rotate it. Rollout date is TBD."
    "Task" [].

(** A story about authentication and nothing else. *)
Definition authentication_story : Issue :=
  ticket "Login" "authentication" "Story" [].

(** A task described at length without any keyword or reference. *)
Definition wordy_task : Issue :=
  ticket "Tidy"
    ("Lorem ipsum dolor sit amet, consectetur elit, sed do eiusmod "
     ++ "tempor incididunt ut labore et dolore magna aliqua.")%string
    "Task" [].

(** ** Reports as text, and the command line

    [format_report] and [main] of the two scripts, and [get_jira_client],
    which is the same function in both. *)

(** [f"{x:.1f}"] for a score: a whole number, printed with one decimal. *)
Definition fmt_1f (z : Z) : str :=
  lit (NilEmpty.string_of_int (Z.to_int z)) ++ lit ".0".

(** [f"{'='*80}"] *)
Definition rule : str := List.repeat 61%N 80.

(** [for i, x in enumerate(l, start)]: the lines each element gives. *)
Fixpoint enumerate_lines (A : Type) (f : nat -> A -> list str) (start : nat)
         (l : list A) : list str :=
  match l with
  | [] => []
  | x :: l' => f start x ++ enumerate_lines f (S start) l'
  end.

(** The structured output handed to [json.dumps]. *)
#[warnings="-register-all"]
Inductive json :=
| JStr (s : str)
| JNum (z : Z)
| JBool (b : bool)
| JList (l : list json)
| JDict (l : list (str * json)).

Definition gap_to_json (g : Gap) : json :=
  JDict [(lit "category", JStr (category g));
         (lit "severity", JStr (severity g));
         (lit "title", JStr (title g));
         (lit "description", JStr (description g));
         (lit "questions", JList (map JStr (questions g)));
         (lit "actions", JList (map JStr (actions g)))].

(** What [click.echo] is given for standard output: a text, or the
    dictionary that [json.dumps(output, indent=2)] serializes. *)
Inductive printed :=
| Text (s : str)
| Json (output : json).

(** What a script writes to standard error: a line of
    [click.echo(..., err=True)], or the traceback that
    [traceback.print_exc()] prints for the exception being handled. *)
Inductive logged :=
| Line (s : str)
| Traceback (message : str).

(** A run of a script: what it wrote and the status it exited with. *)
Record Outcome := {
  stdout : list printed;
  stderr : list logged;
  exit_code : Z
}.

(** The environment [get_jira_client] reads: three variables that may be
    unset, and the user name [getpass.getuser()] returns. *)
Record Env := {
  JIRA_URL : option str;
  JIRA_EMAIL : option str;
  JIRA_API_TOKEN : option str;
  getuser : str
}.

(** The arguments of [Jira(url=, username=, password=, cloud=)]. *)
Record Connection := {
  url : str;
  username : str;
  password : str;
  cloud : bool
}.

(** A call that returns or raises an exception with this text. *)
Inductive result (A : Type) :=
| Returns (a : A)
| Raises (message : str).
Arguments Returns {A} a.
Arguments Raises {A} message.

Definition missing_token_message : str :=
  lit "Missing JIRA_API_TOKEN environment variable." ++ [PyStr.newline]
  ++ lit "Generate a token at: "
  ++ lit "https://id.atlassian.com/manage-profile/security/api-tokens"
  ++ [PyStr.newline]
  ++ lit "Then set: export JIRA_API_TOKEN='your_token_here'".

(** Get configured Jira client. *)
Definition get_jira_client (env : Env) : result Connection :=
  let url := get (JIRA_URL env) (lit "https://zendesk.atlassian.net") in
  let default_email := getuser env ++ lit "@zendesk.com" in
  let email := get (JIRA_EMAIL env) default_email in
  let token := get (JIRA_API_TOKEN env) [] in
  if negb (nonempty token) then Raises missing_token_message
  else Returns {| url := url; username := email; password := token;
                  cloud := true |}.

(** The tracker behind a connection: [client.issue(key)] returns the issue
    or raises. *)
Definition Server := Connection -> str -> result Issue.

Module StandardCLI.

(** The non-ASCII literals, as the file has them. *)
Definition check_mark : str := [8218; 250; 214]%N.
Definition warning_sign : str := [8218; 246; 8224; 212; 8719; 232]%N.
Definition cross_mark : str := [8218; 249; 229]%N.
Definition chart : str := [63743; 252; 236; 228]%N.
Definition bulb : str := [63743; 252; 237; 176]%N.
Definition red : str := [63743; 252; 238; 165]%N.
Definition yellow : str := [63743; 252; 252; 176]%N.
Definition blue : str := [63743; 252; 238; 181]%N.
Definition dot : str := [8218; 196; 162]%N.
Definition arrow : str := [8218; 220; 237]%N.

Import Standard.

(** The qualitative line under the scores. *)
Definition banner (total_score : Z) : str :=
  if 90 <=? total_score then
    check_mark ++ lit " READY FOR POINTING - Excellent readiness"
  else if 75 <=? total_score then
    warning_sign ++ lit "  MOSTLY READY - Minor clarifications needed"
  else if 60 <=? total_score then
    cross_mark ++ lit " NOT READY - Some gaps to address"
  else
    cross_mark ++ lit " NOT READY - Significant work needed".

(** The lines of one gap in the list of gaps. *)
Definition gap_lines (verbose : bool) (i : nat) (gap : Gap) : list str :=
  let severity_emoji :=
    if PyStr.eqb (severity gap) "HIGH" then red
    else if PyStr.eqb (severity gap) "MEDIUM" then yellow
    else blue in
  [PyStr.of_nat i ++ lit ". " ++ severity_emoji ++ lit " " ++ title gap
   ++ lit " [" ++ severity gap ++ lit "]";
   lit "   " ++ description gap]
  ++ (if verbose then
        (if nonempty (questions gap) then
           lit "   Questions:"
           :: map (fun q => lit "      " ++ dot ++ lit " " ++ q)
                (questions gap)
         else [])
        ++ (if nonempty (actions gap) then
              lit "   Actions:"
              :: map (fun a => lit "      " ++ dot ++ lit " " ++ a)
                   (actions gap)
            else [])
      else [])
  ++ [[]].

(** The advice under the heading Recommendation. *)
Definition recommendation (report : ReadinessReport) : list str :=
  if ready_for_pointing report then
    [lit ("   This ticket is ready for pointing. "
          ++ "Minor gaps can be addressed during planning.")%string]
  else
    let high_gaps := filter (has_severity "HIGH") (gaps report) in
    if nonempty high_gaps then
      lit "   Address HIGH severity gaps before pointing:"
      :: flat_map
           (fun gap =>
              (lit "   " ++ dot ++ lit " " ++ title gap)
              :: match actions gap with
                 | a :: _ => [lit "     " ++ arrow ++ lit " " ++ a]
                 | [] => []
                 end)
           (firstn 3 high_gaps)
    else [].

(** The list [lines] of [format_report]. *)
Definition report_lines (report : ReadinessReport) (verbose : bool)
  : list str :=
  let score_emoji :=
    if 90 <=? total_score report then check_mark
    else if 75 <=? total_score report then warning_sign
    else cross_mark in
  [PyStr.newline :: rule;
   lit "Readiness Analysis: " ++ issue_key report;
   rule;
   lit "Summary: " ++ summary report;
   lit "Type: " ++ issue_type report ++ lit " | Status: " ++ status report;
   [];
   chart ++ lit " Readiness Score: " ++ fmt_1f (total_score report)
   ++ lit "/100 " ++ score_emoji;
   lit "   Requirements: " ++ fmt_1f (requirements_score report) ++ lit "/70";
   lit "   Technical:    " ++ fmt_1f (technical_score report) ++ lit "/20";
   lit "   Testing:      " ++ fmt_1f (testing_score report) ++ lit "/5";
   lit "   Context:      " ++ fmt_1f (context_score report) ++ lit "/5";
   [];
   banner (total_score report);
   []]
  ++ (if nonempty (strengths report) then
        (check_mark ++ lit " Strengths:")
        :: map (fun strength => lit "   " ++ dot ++ lit " " ++ strength)
             (strengths report)
        ++ [[]]
      else [])
  ++ (if nonempty (gaps report) then
        (cross_mark ++ lit " Gaps Found ("
         ++ PyStr.of_nat (List.length (gaps report)) ++ lit "):")
        :: [] :: enumerate_lines (gap_lines verbose) 1 (gaps report)
      else [check_mark ++ lit " No gaps detected!"; []])
  ++ [bulb ++ lit " Recommendation:"]
  ++ recommendation report
  ++ [rule ++ [PyStr.newline]].

(** Format readiness report as human-readable text. *)
Definition format_report (report : ReadinessReport) (verbose : bool) : str :=
  PyStr.join [PyStr.newline] (report_lines report verbose).

(** The dictionary [output] of [main]. *)
Definition to_json (report : ReadinessReport) : json :=
  JDict [(lit "issue_key", JStr (issue_key report));
         (lit "summary", JStr (summary report));
         (lit "issue_type", JStr (issue_type report));
         (lit "status", JStr (status report));
         (lit "scores",
          JDict [(lit "requirements", JNum (requirements_score report));
                 (lit "technical", JNum (technical_score report));
                 (lit "testing", JNum (testing_score report));
                 (lit "context", JNum (context_score report));
                 (lit "total", JNum (total_score report))]);
         (lit "ready_for_pointing", JBool (ready_for_pointing report));
         (lit "gaps", JList (map gap_to_json (gaps report)));
         (lit "strengths", JList (map JStr (strengths report)))].

Section Main.
Context {U : UnicodeData}.

(** Analyze a Jira ticket for pointing readiness. *)
Definition main (env : Env) (server : Server)
           (issue_key : str) (verbose json_output : bool) : Outcome :=
  let failed (progress : list logged) (e : str) :=
    {| stdout := [];
       stderr := progress ++ [Line (cross_mark ++ lit " Error: " ++ e)];
       exit_code := 2 |} in
  match get_jira_client env with
  | Raises e => failed [] e
  | Returns client =>
      let progress := [Line (lit "Analyzing " ++ issue_key ++ lit "...")] in
      match server client issue_key with
      | Raises e => failed progress e
      | Returns issue =>
          let report := analyze (fun _ => issue) issue_key in
          {| stdout :=
              [if json_output then Json (to_json report)
               else Text (format_report report verbose)];
             stderr := progress;
             exit_code := if ready_for_pointing report then 0 else 1 |}
      end
  end.

End Main.
End StandardCLI.

Module FSECCLI.

Definition check_mark : str := [9989]%N.
Definition warning_sign : str := [9888; 65039]%N.
Definition cross_mark : str := [10060]%N.
Definition chart : str := [128202]%N.
Definition bulb : str := [128161]%N.
Definition red : str := [128308]%N.
Definition yellow : str := [128993]%N.
Definition blue : str := [128309]%N.
Definition dot : str := [8226]%N.
Definition arrow : str := [8594]%N.

Import FSEC.

(** The qualitative line under the scores. *)
Definition banner (total_score : Z) : str :=
  if 80 <=? total_score then
    check_mark ++ lit " EXCELLENT - Ready for pointing"
  else if 60 <=? total_score then
    warning_sign
    ++ lit "  GOOD ENOUGH - Ready for pointing (FSEC threshold)"
  else if 45 <=? total_score then
    cross_mark ++ lit " NEEDS WORK - Address gaps before pointing"
  else
    cross_mark ++ lit " NOT READY - Significant gaps to address".

(** The lines of one gap in the list of gaps. *)
Definition gap_lines (verbose : bool) (i : nat) (gap : Gap) : list str :=
  let severity_emoji :=
    if PyStr.eqb (severity gap) "HIGH" then red
    else if PyStr.eqb (severity gap) "MEDIUM" then yellow
    else blue in
  [PyStr.of_nat i ++ lit ". " ++ severity_emoji ++ lit " " ++ title gap
   ++ lit " [" ++ severity gap ++ lit "]";
   lit "   " ++ description gap]
  ++ (if verbose && nonempty (actions gap) then
        lit "   Actions:"
        :: map (fun a => lit "      " ++ dot ++ lit " " ++ a) (actions gap)
      else [])
  ++ [[]].

(** The advice under the heading Recommendation. *)
Definition recommendation (report : ReadinessReport) : list str :=
  if ready_for_pointing report then
    lit "   This ticket meets FSEC's baseline for pointing."
    :: (if total_score report <? 80 then
          [lit "   Consider addressing gaps for even better clarity."]
        else [])
  else
    let high_gaps := filter (has_severity "HIGH") (gaps report) in
    if nonempty high_gaps then
      lit "   Address these gaps before pointing:"
      :: flat_map
           (fun gap =>
              (lit "   " ++ dot ++ lit " " ++ title gap)
              :: match actions gap with
                 | a :: _ => [lit "     " ++ arrow ++ lit " " ++ a]
                 | [] => []
                 end)
           (firstn 3 high_gaps)
    else [].

(** The list [lines] of [format_report]. *)
Definition report_lines (report : ReadinessReport) (verbose : bool)
  : list str :=
  let score_emoji :=
    if 80 <=? total_score report then check_mark
    else if 60 <=? total_score report then warning_sign
    else cross_mark in
  [PyStr.newline :: rule;
   lit "FSEC Readiness Analysis: " ++ issue_key report;
   rule;
   lit "Summary: " ++ summary report;
   lit "Type: " ++ issue_type report ++ lit " | Status: " ++ status report;
   [];
   chart ++ lit " FSEC Readiness Score: " ++ fmt_1f (total_score report)
   ++ lit "/100 " ++ score_emoji;
   lit "   Requirements: " ++ fmt_1f (requirements_score report)
   ++ lit "/40 (problem, outcome, clarity)";
   lit "   Technical:    " ++ fmt_1f (technical_score report)
   ++ lit "/40 (AWS context, implementation, refs)";
   lit "   Context:      " ++ fmt_1f (context_score report)
   ++ lit "/15 (links, security)";
   lit "   Testing:      " ++ fmt_1f (testing_score report)
   ++ lit "/5  (verification approach)";
   [];
   banner (total_score report);
   []]
  ++ (if nonempty (strengths report) then
        (check_mark ++ lit " Strengths:")
        :: map (fun strength => lit "   " ++ dot ++ lit " " ++ strength)
             (strengths report)
        ++ [[]]
      else [])
  ++ (if nonempty (gaps report) then
        (cross_mark ++ lit " Gaps Found ("
         ++ PyStr.of_nat (List.length (gaps report)) ++ lit "):")
        :: [] :: enumerate_lines (gap_lines verbose) 1 (gaps report)
      else [check_mark ++ lit " No gaps detected!"; []])
  ++ [bulb ++ lit " Recommendation:"]
  ++ recommendation report
  ++ [[];
      lit ("Note: Using FSEC-specific scoring "
           ++ "(60+ = ready vs. standard 75+)")%string;
      rule ++ [PyStr.newline]].

(** Format readiness report as human-readable text. *)
Definition format_report (report : ReadinessReport) (verbose : bool) : str :=
  PyStr.join [PyStr.newline] (report_lines report verbose).

(** The dictionary [output] of [main]. *)
Definition to_json (report : ReadinessReport) : json :=
  JDict [(lit "issue_key", JStr (issue_key report));
         (lit "summary", JStr (summary report));
         (lit "issue_type", JStr (issue_type report));
         (lit "status", JStr (status report));
         (lit "mode", JStr (mode report));
         (lit "scores",
          JDict [(lit "requirements", JNum (requirements_score report));
                 (lit "technical", JNum (technical_score report));
                 (lit "context", JNum (context_score report));
                 (lit "testing", JNum (testing_score report));
                 (lit "total", JNum (total_score report))]);
         (lit "ready_for_pointing", JBool (ready_for_pointing report));
         (lit "gaps", JList (map gap_to_json (gaps report)));
         (lit "strengths", JList (map JStr (strengths report)))].

Section Main.
Context {U : UnicodeData}.

(** Analyze a Jira ticket using FSEC-specific readiness criteria. *)
Definition main (env : Env) (server : Server)
           (issue_key : str) (verbose json_output : bool) : Outcome :=
  let failed (progress : list logged) (e : str) :=
    {| stdout := [];
       stderr :=
         progress
         ++ [Line (cross_mark ++ lit " Error: " ++ e); Traceback e];
       exit_code := 2 |} in
  match get_jira_client env with
  | Raises e => failed [] e
  | Returns client =>
      let progress :=
        [Line (lit "Analyzing " ++ issue_key ++ lit " (FSEC mode)...")] in
      match server client issue_key with
      | Raises e => failed progress e
      | Returns issue =>
          let report := analyze (fun _ => issue) issue_key in
          {| stdout :=
              [if json_output then Json (to_json report)
               else Text (format_report report verbose)];
             stderr := progress;
             exit_code := if ready_for_pointing report then 0 else 1 |}
      end
  end.

End Main.
End FSECCLI.

(** ** Vocabulary of the further properties *)

(** [l] can be obtained from [m] by dropping elements. *)
Fixpoint subseq (l m : list str) : bool :=
  match l, m with
  | [], _ => true
  | _ :: _, [] => false
  | x :: l', y :: m' => if PyStr.eqb x y then subseq l' m' else subseq l m'
  end.







(** A story with an open question in its last comment. *)
Definition commented_story : Issue :=
  ticket "Export" "Given a file, when exported, then we test the api"
    "Story" ["Looks fine"; "Header format is TODO"].

(** The titles of the gaps, in the order [analyze] runs the detectors. *)
Definition standard_titles : list str :=
  strs ["Missing Acceptance Criteria"; "Vague or Ambiguous Requirements";
        "No Technical Context"; "Missing Dependencies"; "No Test Scenarios";
        "Scope Growing in Comments"; "Security Review Needed"].

Definition fsec_titles : list str :=
  strs ["Missing Problem Statement"; "Critical Ambiguity";
        "Limited AWS Context"; "Unclear Implementation"; "No References";
        "Security Implications"].

(** A gap of this title is among the gaps. *)
Definition has_gap (t : string) (gaps : list Gap) : bool :=
  existsb (fun g => PyStr.eqb (title g) t) gaps.

(** The HIGH gaps of the requirements category. *)
Definition high_requirement (g : Gap) : bool :=
  in_category "requirements" g && has_severity "HIGH" g.

Definition bool_to_Z (b : bool) : Z := if b then 1 else 0.

(** More tickets. *)

(** A bug report in one line. *)
Definition crash_bug : Issue :=
  ticket "Crash on save" "Saving a draft crashes the editor" "Bug" [].

(** A story that only lacks acceptance criteria. *)
Definition criteria_free_story : Issue :=
  ticket "Export" "Update the export api and test it" "Story" [].


(** A task of exactly one hundred characters without any keyword. *)
Definition hundred_task : Issue :=
  ticket "Tidy"
    ("Lorem ipsum dolor sit amet, consectetur elit, sed do eiusmod "
     ++ "tempor incididunt ut labore et magna a.")%string
    "Task" [].

(** A story whose comments keep growing the scope. *)
Definition growing_story : Issue :=
  ticket "Export" "Given a file, when exported, then we test the api"
    "Story"
    ["Also export the header"; "Looks fine"; "Plus a footer";
     "Additionally sign the file"; "Agreed"].

(** * Properties *)

(** ** Counting and the deductive scores *)

Lemma count_nonneg (p : Gap -> bool) (gaps : list Gap) : 0 <= count p gaps.
Proof. unfold count. apply Nat2Z.is_nonneg. Qed.

Lemma count_app (p : Gap -> bool) (l1 l2 : list Gap) :
  count p (l1 ++ l2) = count p l1 + count p l2.
Proof.
  unfold count. rewrite filter_app, length_app. apply Nat2Z.inj_add.
Qed.

Lemma count_cons (p : Gap -> bool) (g : Gap) (l : list Gap) :
  count p (g :: l) = (if p g then 1 else 0) + count p l.
Proof.
  unfold count. simpl. destruct (p g); simpl List.length; lia.
Qed.

(** A deduction never raises a score above its starting value, and the
    final [max(0, score)] keeps it from going below zero. *)
Lemma deduct2_range (top a wa b wb : Z) :
  0 <= top -> 0 <= a -> 0 <= wa -> 0 <= b -> 0 <= wb ->
  0 <= Z.max 0 (top - a * wa - b * wb) <= top.
Proof. intros. nia. Qed.

Section ScoreRanges.
Context {U : UnicodeData}.
Variable gaps : list Gap.

Lemma standard_requirements_range :
  0 <= Standard._calculate_requirements_score gaps <= 70.
Proof.
  unfold Standard._calculate_requirements_score.
  apply deduct2_range; try lia; apply count_nonneg.
Qed.

Lemma standard_technical_range :
  0 <= Standard._calculate_technical_score gaps <= 20.
Proof.
  unfold Standard._calculate_technical_score.
  apply deduct2_range; try lia; apply count_nonneg.
Qed.

Lemma standard_testing_range :
  0 <= Standard._calculate_testing_score gaps <= 5.
Proof.
  unfold Standard._calculate_testing_score.
  destruct (nonempty _); lia.
Qed.

Lemma standard_context_range :
  0 <= Standard._calculate_context_score gaps <= 5.
Proof.
  unfold Standard._calculate_context_score.
  pose proof (count_nonneg (has_severity "HIGH")
                (filter (in_category "context") gaps)).
  lia.
Qed.

Lemma fsec_requirements_range (d : str) :
  0 <= FSEC._calculate_requirements_score d gaps <= 40.
Proof.
  unfold FSEC._calculate_requirements_score.
  apply deduct2_range; try lia; apply count_nonneg.
Qed.

Lemma fsec_technical_range (d : str) (issue : Issue) :
  0 <= FSEC._calculate_technical_score d issue gaps <= 40.
Proof. unfold FSEC._calculate_technical_score. lia. Qed.

Lemma fsec_context_range (d : str) :
  0 <= FSEC._calculate_context_score d gaps <= 15.
Proof.
  unfold FSEC._calculate_context_score.
  pose proof (count_nonneg (has_severity "HIGH")
                (filter (in_category "context") gaps)).
  pose proof (count_nonneg (has_severity "MEDIUM")
                (filter (in_category "context") gaps)).
  pose proof (count_nonneg (has_severity "LOW")
                (filter (in_category "context") gaps)).
  lia.
Qed.

Lemma fsec_testing_values (text : str) :
  FSEC._calculate_testing_score text = 3
  \/ FSEC._calculate_testing_score text = 5.
Proof.
  unfold FSEC._calculate_testing_score.
  destruct (_ || _); auto.
Qed.

End ScoreRanges.

(** ** The verdict *)

(** C1: in both analyzers the verdict of a report is the conjunction of the
    two comparisons and of nothing else: total >= 75 and requirements >= 50
    in the general profile, total >= 60 and requirements >= 25 in the FSEC
    profile. *)
Theorem verdict_is_threshold_and_floor
  {U : UnicodeData} (client : Jira) (issue_key : str) :
  let r := Standard.analyze client issue_key in
  let q := FSEC.analyze client issue_key in
  Standard.ready_for_pointing r
  = (75 <=? Standard.total_score r) && (50 <=? Standard.requirements_score r)
  /\ FSEC.ready_for_pointing q
     = (60 <=? FSEC.total_score q) && (25 <=? FSEC.requirements_score q).
Proof. split; reflexivity. Qed.

(** ** Ranges of the scores *)

(** C2: in every report each category score lies between 0 and the maximum
    of its category (70, 20, 5, 5 for requirements, technical, testing and
    context in the general profile; 40, 40, 15, 5 for requirements,
    technical, context and testing in the FSEC profile), the total is the
    sum of the four and lies between 0 and 100. *)
Theorem scores_within_category_maxima
  {U : UnicodeData} (client : Jira) (issue_key : str) :
  let r := Standard.analyze client issue_key in
  let q := FSEC.analyze client issue_key in
  (0 <= Standard.requirements_score r <= 70
   /\ 0 <= Standard.technical_score r <= 20
   /\ 0 <= Standard.testing_score r <= 5
   /\ 0 <= Standard.context_score r <= 5
   /\ Standard.total_score r
      = Standard.requirements_score r + Standard.technical_score r
        + Standard.testing_score r + Standard.context_score r
   /\ 0 <= Standard.total_score r <= 100)
  /\ (0 <= FSEC.requirements_score q <= 40
      /\ 0 <= FSEC.technical_score q <= 40
      /\ 0 <= FSEC.context_score q <= 15
      /\ 0 <= FSEC.testing_score q <= 5
      /\ FSEC.total_score q
         = FSEC.requirements_score q + FSEC.technical_score q
           + FSEC.context_score q + FSEC.testing_score q
      /\ 0 <= FSEC.total_score q <= 100).
Proof.
  intros r q. split.
  - subst r. unfold Standard.analyze. cbv zeta.
    cbn [Standard.requirements_score Standard.technical_score
         Standard.testing_score Standard.context_score Standard.total_score].
    match goal with
    | |- context [Standard._calculate_requirements_score ?g] =>
        pose proof (standard_requirements_range g);
        pose proof (standard_technical_range g);
        pose proof (standard_testing_range g);
        pose proof (standard_context_range g)
    end.
    repeat split; lia.
  - subst q. unfold FSEC.analyze. cbv zeta.
    cbn [FSEC.requirements_score FSEC.technical_score FSEC.testing_score
         FSEC.context_score FSEC.total_score].
    match goal with
    | |- context [FSEC._calculate_requirements_score ?d ?g] =>
        pose proof (fsec_requirements_range g d);
        pose proof (fsec_context_range g d)
    end.
    match goal with
    | |- context [FSEC._calculate_technical_score ?d ?i ?g] =>
        pose proof (fsec_technical_range g d i)
    end.
    match goal with
    | |- context [FSEC._calculate_testing_score ?t] =>
        pose proof (fsec_testing_values t)
    end.
    repeat split; lia.
Qed.

(** ** What the detectors can return

    Every detector returns either nothing or one gap of a fixed category and
    severity; only the texts of the ambiguity and scope gaps vary. *)
Section DetectorShapes.
Context {U : UnicodeData}.

Ltac one_or_none :=
  repeat match goal with
         | |- context [if ?c then _ else _] => destruct c
         end;
  eauto.

Lemma standard_ac_shape (d t : str) :
  Standard._check_acceptance_criteria d t = []
  \/ Standard._check_acceptance_criteria d t = [Standard.missing_ac_gap].
Proof. unfold Standard._check_acceptance_criteria. one_or_none. Qed.

Lemma standard_vague_shape (text : str) :
  Standard._check_vague_language text = []
  \/ exists ex, Standard._check_vague_language text = [Standard.vague_gap ex].
Proof.
  unfold Standard._check_vague_language.
  destruct (_ || _); eauto.
Qed.

Lemma standard_technical_shape (d t : str) :
  Standard._check_technical_context d t = []
  \/ Standard._check_technical_context d t
     = [Standard.no_technical_context_gap].
Proof. unfold Standard._check_technical_context. one_or_none. Qed.

Lemma standard_dependencies_shape (text : str) (issue : Issue) :
  Standard._check_dependencies text issue = []
  \/ Standard._check_dependencies text issue
     = [Standard.missing_dependencies_gap].
Proof. unfold Standard._check_dependencies. one_or_none. Qed.

Lemma standard_test_shape (text t : str) :
  Standard._check_test_scenarios text t = []
  \/ Standard._check_test_scenarios text t = [Standard.no_test_scenarios_gap].
Proof. unfold Standard._check_test_scenarios. one_or_none. Qed.

Lemma standard_scope_shape (comments : list str) :
  Standard._check_scope_creep comments = []
  \/ exists n, Standard._check_scope_creep comments = [Standard.scope_gap n].
Proof. unfold Standard._check_scope_creep. one_or_none. Qed.

Lemma standard_security_shape (text : str) :
  Standard._check_security_context text = []
  \/ Standard._check_security_context text = [Standard.security_review_gap].
Proof. unfold Standard._check_security_context. one_or_none. Qed.

Lemma fsec_problem_shape (d : str) :
  FSEC._check_problem_statement d = []
  \/ FSEC._check_problem_statement d = [FSEC.missing_problem_gap].
Proof. unfold FSEC._check_problem_statement. one_or_none. Qed.

Lemma fsec_critical_shape (text : str) :
  FSEC._check_critical_ambiguity text = []
  \/ exists fc, FSEC._check_critical_ambiguity text = [FSEC.critical_gap fc].
Proof. unfold FSEC._check_critical_ambiguity. one_or_none. Qed.

Lemma fsec_aws_shape (d t : str) :
  FSEC._check_aws_context d t = []
  \/ FSEC._check_aws_context d t = [FSEC.limited_aws_gap].
Proof. unfold FSEC._check_aws_context. one_or_none. Qed.

Lemma fsec_implementation_shape (d : str) :
  FSEC._check_implementation_clarity d = []
  \/ FSEC._check_implementation_clarity d = [FSEC.unclear_implementation_gap].
Proof. unfold FSEC._check_implementation_clarity. one_or_none. Qed.

Lemma fsec_references_shape (d : str) :
  FSEC._check_references d = []
  \/ FSEC._check_references d = [FSEC.no_references_gap].
Proof. unfold FSEC._check_references. one_or_none. Qed.

Lemma fsec_security_shape (text : str) :
  FSEC._check_security_context text = []
  \/ FSEC._check_security_context text = [FSEC.security_gap].
Proof. unfold FSEC._check_security_context. one_or_none. Qed.

End DetectorShapes.

(** Case analysis on the outcome of every detector that occurs in the
    goal. *)
Ltac detector_cases :=
  repeat match goal with
    | |- context [Standard._check_acceptance_criteria ?d ?t] =>
        destruct (standard_ac_shape d t) as [-> | ->]
    | |- context [Standard._check_vague_language ?x] =>
        destruct (standard_vague_shape x) as [-> | [? ->]]
    | |- context [Standard._check_technical_context ?d ?t] =>
        destruct (standard_technical_shape d t) as [-> | ->]
    | |- context [Standard._check_dependencies ?x ?i] =>
        destruct (standard_dependencies_shape x i) as [-> | ->]
    | |- context [Standard._check_test_scenarios ?x ?t] =>
        destruct (standard_test_shape x t) as [-> | ->]
    | |- context [Standard._check_scope_creep ?c] =>
        destruct (standard_scope_shape c) as [-> | [? ->]]
    | |- context [Standard._check_security_context ?x] =>
        destruct (standard_security_shape x) as [-> | ->]
    | |- context [FSEC._check_problem_statement ?d] =>
        destruct (fsec_problem_shape d) as [-> | ->]
    | |- context [FSEC._check_critical_ambiguity ?x] =>
        destruct (fsec_critical_shape x) as [-> | [? ->]]
    | |- context [FSEC._check_aws_context ?d ?t] =>
        destruct (fsec_aws_shape d t) as [-> | ->]
    | |- context [FSEC._check_implementation_clarity ?d] =>
        destruct (fsec_implementation_shape d) as [-> | ->]
    | |- context [FSEC._check_references ?d] =>
        destruct (fsec_references_shape d) as [-> | ->]
    | |- context [FSEC._check_security_context ?x] =>
        destruct (fsec_security_shape x) as [-> | ->]
    end.

(** In the FSEC profile every technical gap a ticket can get is of MEDIUM
    severity, the only one the technical score deducts for, and no gap is
    ever filed under testing. *)
Lemma fsec_technical_gaps_are_medium
  {U : UnicodeData} (d text t : str) :
  let tech_gaps := filter (in_category "technical") (FSEC.detect d text t) in
  count (has_severity "MEDIUM") tech_gaps = Z.of_nat (List.length tech_gaps).
Proof.
  unfold FSEC.detect. detector_cases; vm_compute; reflexivity.
Qed.

Lemma fsec_no_testing_gaps {U : UnicodeData} (d text t : str) :
  filter (in_category "testing") (FSEC.detect d text t) = [].
Proof.
  unfold FSEC.detect. detector_cases; vm_compute; reflexivity.
Qed.

(** ** The additive technical score and the testing score of the FSEC
    profile *)

Lemma standard_gaps_eq {U : UnicodeData} (client : Jira) (issue_key : str) :
  Standard.gaps (Standard.analyze client issue_key)
  = Standard.detect (description_of client issue_key)
      (all_text_of client issue_key) (type_of client issue_key)
      (comments_of client issue_key) (client issue_key).
Proof. reflexivity. Qed.

Lemma fsec_gaps_eq {U : UnicodeData} (client : Jira) (issue_key : str) :
  FSEC.gaps (FSEC.analyze client issue_key)
  = FSEC.detect (description_of client issue_key)
      (all_text_of client issue_key) (type_of client issue_key).
Proof. reflexivity. Qed.

(** The second disjunct of the test in [_calculate_testing_score] adds
    nothing: verify is one of the test keywords. *)
Lemma fsec_testing_score_eq {U : UnicodeData} (text : str) :
  FSEC._calculate_testing_score text
  = if PyStr.any_in FSEC.TEST_KEYWORDS (str_lower text) then 5 else 3.
Proof.
  unfold FSEC._calculate_testing_score.
  unfold PyStr.any_in, FSEC.TEST_KEYWORDS, strs. cbn [map existsb].
  destruct (PyStr.contains "test" (str_lower text)),
    (PyStr.contains "verify" (str_lower text)),
    (PyStr.contains "validate" (str_lower text)),
    (PyStr.contains "check" (str_lower text)); reflexivity.
Qed.

(** C5: the technical score of the FSEC profile starts from 0, gains 15 for
    an infrastructure keyword in the lowered description, 15 for an
    implementation keyword and 10 for an outbound reference (github.com,
    slack.com or an issue key), loses 5 for each technical gap of the report
    and is clamped to [0, 40]; with no indicator and no technical gap it is
    0. *)
Theorem fsec_technical_score_is_additive
  {U : UnicodeData} (client : Jira) (issue_key : str) :
  let q := FSEC.analyze client issue_key in
  let d := description_of client issue_key in
  let aws := PyStr.any_in FSEC.AWS_KEYWORDS (str_lower d) in
  let action := PyStr.any_in FSEC.IMPLEMENTATION_KEYWORDS (str_lower d) in
  let refs :=
    PyStr.contains "github.com" d || PyStr.contains "slack.com" d
    || Re.found false FSEC.jira_pattern d in
  let points :=
    (if aws then 15 else 0) + (if action then 15 else 0)
    + (if refs then 10 else 0) in
  let tech_gaps := filter (in_category "technical") (FSEC.gaps q) in
  FSEC.technical_score q
  = Z.min 40 (Z.max 0 (points - 5 * Z.of_nat (List.length tech_gaps)))
  /\ (aws = false -> action = false -> refs = false -> tech_gaps = [] ->
      FSEC.technical_score q = 0).
Proof.
  intros q d aws action refs points tech_gaps.
  assert (E : FSEC.technical_score q
              = Z.min 40 (Z.max 0 (points
                                   - 5 * Z.of_nat (List.length tech_gaps)))).
  { subst tech_gaps q. rewrite fsec_gaps_eq.
    rewrite <- fsec_technical_gaps_are_medium.
    subst points. unfold FSEC.analyze. cbv zeta.
    cbn [FSEC.technical_score]. unfold FSEC._calculate_technical_score.
    fold (description_of client issue_key). fold d. fold aws action refs.
    fold (type_of client issue_key).
    change (text_of _ d _) with (all_text_of client issue_key).
    destruct aws, action, refs; cbv zeta; f_equal; f_equal; lia. }
  split; [exact E|].
  intros Ha Hi Hr Hg. rewrite E. subst points.
  rewrite Ha, Hi, Hr, Hg. reflexivity.
Qed.

Lemma fsec_technical_score_is_additive_witness :
  (PyStr.any_in FSEC.AWS_KEYWORDS
     (@str_lower ascii_tables (description_of (tracker wordy_task) "K-1"))
   = false
   /\ PyStr.any_in FSEC.IMPLEMENTATION_KEYWORDS
        (@str_lower ascii_tables (description_of (tracker wordy_task) "K-1"))
      = false
   /\ PyStr.contains "github.com" (description_of (tracker wordy_task) "K-1")
      || PyStr.contains "slack.com" (description_of (tracker wordy_task) "K-1")
      || Re.found (U := ascii_tables) false FSEC.jira_pattern
           (description_of (tracker wordy_task) "K-1")
      = false
   /\ filter (in_category "technical")
        (FSEC.gaps
           (FSEC.analyze (U := ascii_tables) (tracker wordy_task) "K-1"))
      = [])
  /\ FSEC.technical_score
       (FSEC.analyze (U := ascii_tables) (tracker wordy_task) "K-1") = 0.
Proof.
  split; [vm_compute; auto|].
  apply (@fsec_technical_score_is_additive ascii_tables (tracker wordy_task)
           "K-1"); vm_compute; reflexivity.
Defined.

(** C10: the testing score of the FSEC profile is computed from the combined
    text alone: 5 when a test keyword occurs in the lowered text, 3
    otherwise, hence never 0; two tickets with the same combined text get
    the same testing score, whatever their gaps. *)
Theorem fsec_testing_score_is_3_or_5
  {U : UnicodeData} (client : Jira) (issue_key : str) :
  let q := FSEC.analyze client issue_key in
  let text_lower := str_lower (all_text_of client issue_key) in
  FSEC.testing_score q
  = (if PyStr.any_in FSEC.TEST_KEYWORDS text_lower then 5 else 3)
  /\ (FSEC.testing_score q = 3 \/ FSEC.testing_score q = 5)
  /\ FSEC.testing_score q <> 0
  /\ (forall (client' : Jira) (issue_key' : str),
        all_text_of client' issue_key' = all_text_of client issue_key ->
        FSEC.testing_score (FSEC.analyze client' issue_key')
        = FSEC.testing_score q).
Proof.
  intros q text_lower.
  assert (E : FSEC.testing_score q
              = if PyStr.any_in FSEC.TEST_KEYWORDS text_lower
                then 5 else 3)
    by apply fsec_testing_score_eq.
  split; [exact E|]. split; [|split].
  - rewrite E. destruct (PyStr.any_in _ _); auto.
  - rewrite E. destruct (PyStr.any_in _ _); discriminate.
  - intros client' issue_key' H.
    change (FSEC._calculate_testing_score (all_text_of client' issue_key')
            = FSEC._calculate_testing_score (all_text_of client issue_key)).
    rewrite H. reflexivity.
Qed.

(** ** Facts about Python strings *)

(** [PyStr.eqb], [PyStr.startswith] and [PyStr.contains] decide equality,
    prefixes and substrings. *)
Lemma pystr_eqb_eq (a b : str) : PyStr.eqb a b = true <-> a = b.
Proof.
  revert b. induction a as [|x a IH]; intros [|y b]; simpl;
    try (split; [discriminate | discriminate]); [tauto|].
  rewrite andb_true_iff, N.eqb_eq, IH.
  split; [intros [-> ->]; reflexivity | intros E; inversion E; auto].
Qed.

Lemma startswith_app (p s t : str) :
  PyStr.startswith p s = true -> PyStr.startswith p (s ++ t) = true.
Proof.
  revert s. induction p as [|x p IH]; intros [|y s]; simpl; auto;
    try discriminate.
  rewrite !andb_true_iff. intros [E H]. auto.
Qed.

(** A substring of a part is a substring of the whole. *)
Lemma contains_app_l (sub s t : str) :
  PyStr.contains sub s = true -> PyStr.contains sub (s ++ t) = true.
Proof.
  induction s as [|y s IH]; simpl.
  - rewrite orb_false_r. destruct sub; [|discriminate].
    intros _. destruct t; reflexivity.
  - rewrite !orb_true_iff. intros [H | H].
    + left. apply (startswith_app sub (y :: s) t H).
    + right. auto.
Qed.

Lemma contains_app_r (sub s t : str) :
  PyStr.contains sub t = true -> PyStr.contains sub (s ++ t) = true.
Proof.
  intros H. induction s as [|y s IH]; simpl; auto.
  rewrite IH. apply orb_true_r.
Qed.

Lemma startswith_iff (p s : str) :
  PyStr.startswith p s = true <-> exists t, s = p ++ t.
Proof.
  revert s. induction p as [|x p IH]; intros s.
  - split; [exists s; reflexivity | reflexivity].
  - destruct s as [|y s]; simpl.
    + split; [discriminate | intros [t E]; discriminate].
    + rewrite andb_true_iff, N.eqb_eq, IH. split.
      * intros [-> [t ->]]. exists t. reflexivity.
      * intros [t E]. injection E as -> ->. eauto.
Qed.

Lemma contains_unfold (sub s : str) :
  PyStr.contains sub s
  = PyStr.startswith sub s
    || match s with
       | [] => false
       | _ :: s' => PyStr.contains sub s'
       end.
Proof. destruct s; reflexivity. Qed.

Lemma contains_iff (sub s : str) :
  PyStr.contains sub s = true <-> exists pre post, s = pre ++ sub ++ post.
Proof.
  split.
  - induction s as [|y s IH]; rewrite contains_unfold, orb_true_iff;
      intros [H | H]; try discriminate.
    + apply startswith_iff in H as [t ->]. exists [], t. reflexivity.
    + apply startswith_iff in H as [t ->]. exists [], t. reflexivity.
    + destruct (IH H) as (pre & post & ->). exists (y :: pre), post.
      reflexivity.
  - intros (pre & post & ->). apply contains_app_r.
    rewrite contains_unfold, orb_true_iff. left.
    apply startswith_iff. eauto.
Qed.

(** The description is part of the combined text. *)
Lemma contains_text_of (sub summary d : str) (comments : list str) :
  PyStr.contains sub d = true ->
  PyStr.contains sub (text_of summary d comments) = true.
Proof.
  intros H. unfold text_of.
  apply contains_app_r, contains_app_r, contains_app_l, H.
Qed.


Lemma contains_join (sub sep c : str) (l : list str) :
  In c l -> PyStr.contains sub c = true ->
  PyStr.contains sub (PyStr.join sep l) = true.
Proof.
  intros Hin Hc. induction l as [|x l IH]; [contradiction|].
  destruct l as [|y l].
  - destruct Hin as [-> | []]. exact Hc.
  - change (PyStr.join sep (x :: y :: l))
      with (x ++ sep ++ PyStr.join sep (y :: l)).
    destruct Hin as [-> | Hin].
    + apply contains_app_l, Hc.
    + apply contains_app_r, contains_app_r, IH, Hin.
Qed.

(** ** Gaps with values the scoring does not know *)

Lemma unknown_category_in_none (g : Gap) :
  known_category g = false ->
  in_category "requirements" g = false /\ in_category "technical" g = false
  /\ in_category "testing" g = false /\ in_category "context" g = false.
Proof.
  unfold known_category, known_categories, PyStr.mem, strs, in_category.
  cbn [map existsb]. rewrite !orb_false_iff. tauto.
Qed.

Lemma unknown_severity_has_none (g : Gap) :
  known_severity g = false ->
  has_severity "HIGH" g = false /\ has_severity "MEDIUM" g = false
  /\ has_severity "LOW" g = false.
Proof.
  unfold known_severity, known_severities, PyStr.mem, strs, has_severity.
  cbn [map existsb]. rewrite !orb_false_iff. tauto.
Qed.

Lemma filter_skip (A : Type) (p : A -> bool) (x : A) (l1 l2 : list A) :
  p x = false -> filter p (l1 ++ x :: l2) = filter p (l1 ++ l2).
Proof.
  intros H. rewrite !filter_app. simpl. rewrite H. reflexivity.
Qed.

(** Counting a severity within a category is blind to a gap that is of
    another category or of another severity. *)
Lemma count_skip (c v : string) (g : Gap) (l1 l2 : list Gap) :
  in_category c g = false \/ has_severity v g = false ->
  count (has_severity v) (filter (in_category c) (l1 ++ g :: l2))
  = count (has_severity v) (filter (in_category c) (l1 ++ l2)).
Proof.
  intros [H | H].
  - rewrite (filter_skip _ _ _ _ H). reflexivity.
  - rewrite !filter_app, !count_app. simpl.
    destruct (in_category c g); [|reflexivity].
    rewrite count_cons, H. reflexivity.
Qed.

(** C4, as stated, fails: the scoring functions return a score for a gap of
    severity CRITICAL and for a gap of category performance, and the score
    is the one of the empty gap list. *)
Lemma unknown_gap_scored_silently :
  known_severity critical_severity_gap = false
  /\ known_category performance_gap = false
  /\ Standard._calculate_requirements_score [critical_severity_gap] = 70
  /\ Standard._calculate_requirements_score [performance_gap] = 70
  /\ Standard._calculate_requirements_score [] = 70
  /\ FSEC._calculate_context_score [] [performance_gap] = 15
  /\ FSEC._calculate_context_score [] [] = 15.
Proof. vm_compute. repeat split; reflexivity. Qed.

(** C4, amended: an unrecognized value is skipped, not rejected.  For a gap
    whose category is not one of the four or whose severity is not one of
    the three, at any position of the gap list, the requirements, technical
    and context scores of both profiles equal the scores of the list without
    that gap, under every table of character properties; the testing score
    of the general profile, which does not read severities, equals the score
    without the gap when the category is the unrecognized value. *)
Theorem unrecognized_gap_is_ignored
  {U : UnicodeData} (g : Gap) (l1 l2 : list Gap) (d : str) (issue : Issue) :
  known_category g = false \/ known_severity g = false ->
  (Standard._calculate_requirements_score (l1 ++ g :: l2)
   = Standard._calculate_requirements_score (l1 ++ l2)
   /\ Standard._calculate_technical_score (l1 ++ g :: l2)
      = Standard._calculate_technical_score (l1 ++ l2)
   /\ Standard._calculate_context_score (l1 ++ g :: l2)
      = Standard._calculate_context_score (l1 ++ l2))
  /\ (FSEC._calculate_requirements_score d (l1 ++ g :: l2)
      = FSEC._calculate_requirements_score d (l1 ++ l2)
      /\ FSEC._calculate_technical_score d issue (l1 ++ g :: l2)
         = FSEC._calculate_technical_score d issue (l1 ++ l2)
      /\ FSEC._calculate_context_score d (l1 ++ g :: l2)
         = FSEC._calculate_context_score d (l1 ++ l2))
  /\ (known_category g = false ->
      Standard._calculate_testing_score (l1 ++ g :: l2)
      = Standard._calculate_testing_score (l1 ++ l2)).
Proof.
  intros H.
  assert (S : forall c v : string,
             In c ["requirements"; "technical"; "testing"; "context"] ->
             In v ["HIGH"; "MEDIUM"; "LOW"] ->
             count (has_severity v) (filter (in_category c) (l1 ++ g :: l2))
             = count (has_severity v) (filter (in_category c) (l1 ++ l2))).
  { intros c v Hc Hv. apply count_skip. destruct H as [H | H].
    - left. apply unknown_category_in_none in H.
      simpl in Hc. intuition (subst; auto).
    - right. apply unknown_severity_has_none in H.
      simpl in Hv. intuition (subst; auto). }
  unfold Standard._calculate_requirements_score,
    Standard._calculate_technical_score, Standard._calculate_context_score,
    FSEC._calculate_requirements_score, FSEC._calculate_technical_score,
    FSEC._calculate_context_score, Standard._calculate_testing_score.
  cbv zeta. rewrite !S by (simpl; tauto).
  repeat split.
  intros Hc. apply unknown_category_in_none in Hc.
  rewrite filter_skip by tauto. reflexivity.
Qed.

Lemma unrecognized_gap_is_ignored_witness :
  (known_category critical_severity_gap = false
   \/ known_severity critical_severity_gap = false)
  /\ Standard._calculate_requirements_score
       ([Standard.missing_ac_gap] ++ critical_severity_gap :: [])
     = Standard._calculate_requirements_score ([Standard.missing_ac_gap] ++ [])
  /\ FSEC._calculate_context_score []
       ([FSEC.no_references_gap] ++ critical_severity_gap :: [])
     = FSEC._calculate_context_score [] ([FSEC.no_references_gap] ++ []).
Proof.
  assert (H : known_category critical_severity_gap = false
              \/ known_severity critical_severity_gap = false)
    by (right; vm_compute; reflexivity).
  split; [exact H|]. split.
  - apply (@unrecognized_gap_is_ignored ascii_tables critical_severity_gap
             [Standard.missing_ac_gap] [] [] bare_task H).
  - apply (@unrecognized_gap_is_ignored ascii_tables critical_severity_gap
             [FSEC.no_references_gap] [] [] bare_task H).
Defined.

(** ** The context pattern finds every occurrence of its word *)
Section ContextPattern.
Context {U : UnicodeData}.

(** A repetition that may be empty succeeds as soon as what follows it
    succeeds at the current position. *)
Lemma rep_zero_some (A : Type) (cs : Re.cset) (hi : option nat)
      (prev : option char) (s : str) (k : option char -> str -> option A) :
  k prev s <> None -> Re.rep cs 0 hi prev s k <> None.
Proof.
  intros H. destruct s as [|x s]; simpl; [exact H|].
  destruct (Re.room hi && Re.in_cset cs x); [|exact H].
  destruct (Re.rep _ _ _ _ _ _); [discriminate | exact H].
Qed.

(** Under re.IGNORECASE a literal word matches where the text starts with
    exactly that word. *)
Lemma exec_word (A : Type) (w s : str) (prev : option char)
      (k : option char -> str -> option A) :
  PyStr.startswith w s = true ->
  exists prev',
    Re.exec true (Re.word w) prev s k = k prev' (skipn (List.length w) s).
Proof.
  revert s prev. induction w as [|c w IH]; intros s prev H.
  - exists prev. destruct s; reflexivity.
  - destruct s as [|x s]; [discriminate|].
    simpl in H. apply andb_true_iff in H as [E H].
    apply N.eqb_eq in E. subst x.
    destruct w as [|c' w].
    + exists (Some c). simpl. unfold Re.lit_match. rewrite ieq_refl.
      reflexivity.
    + destruct (IH s (Some c) H) as [prev' IH'].
      exists prev'. change (Re.word (c :: c' :: w))
        with (Re.Cat (Re.Lit c) (Re.word (c' :: w))).
      cbn [Re.exec]. unfold Re.lit_match. rewrite ieq_refl.
      exact IH'.
Qed.

Lemma context_match_here (w s : str) (prev : option char) :
  PyStr.startswith w s = true ->
  Re.match_here true (Standard.context_pattern w) prev s <> None.
Proof.
  intros H. unfold Re.match_here, Standard.context_pattern.
  cbn [Re.seq Re.exec]. apply rep_zero_some.
  destruct (@exec_word _ w s prev
              (fun p' s' =>
                 Re.rep Re.Dot 0 (Some 50%nat) p' s'
                   (fun _ rest =>
                      Some (firstn (List.length s - List.length rest) s)))
              H) as [prev' ->].
  apply rep_zero_some. discriminate.
Qed.

Lemma context_search (w text : str) :
  PyStr.contains w text = true ->
  Re.search true (Standard.context_pattern w) text <> None.
Proof.
  unfold Re.search. generalize (@None char).
  induction text as [|x text IH]; intros prev H; simpl in H |- *.
  - rewrite orb_false_r in H.
    pose proof (@context_match_here w [] prev H) as M.
    destruct (Re.match_here _ _ _ _); [discriminate | contradiction].
  - pose proof (@context_match_here w (x :: text) prev) as M.
    destruct (Re.match_here _ _ _ _); [discriminate|].
    destruct (PyStr.startswith w (x :: text)); [now elim M|].
    apply IH. exact H.
Qed.

(** The ambiguity detectors fire on a text that contains TBD. *)
Lemma standard_vague_fires (text : str) :
  PyStr.contains "TBD" text = true ->
  exists ex, Standard._check_vague_language text = [Standard.vague_gap ex].
Proof.
  intros H. unfold Standard._check_vague_language.
  assert (E : nonempty (Standard.found_incomplete text) = true).
  { unfold Standard.found_incomplete, Standard.INCOMPLETE_MARKERS, strs.
    cbn [map filter]. rewrite H. reflexivity. }
  rewrite E, orb_true_r. eauto.
Qed.

Lemma fsec_critical_fires (text : str) :
  PyStr.contains "TBD" text = true ->
  exists fc, FSEC._check_critical_ambiguity text = [FSEC.critical_gap fc].
Proof.
  intros H. unfold FSEC._check_critical_ambiguity.
  assert (E : nonempty (FSEC.found_critical text) = true).
  { unfold FSEC.found_critical, FSEC.CRITICAL_VAGUE, strs.
    cbn [map flat_map]. rewrite H.
    pose proof (context_search _ _ H) as M.
    change (FSEC.context_pattern "TBD")
      with (Standard.context_pattern "TBD").
    destruct (Re.search _ _ _); [reflexivity | contradiction]. }
  rewrite E. eauto.
Qed.

End ContextPattern.

(** ** Categories without gaps *)
Section NoGaps.
Variable gaps : list Gap.

Lemma standard_requirements_full :
  no_gaps_in "requirements" gaps ->
  Standard._calculate_requirements_score gaps = 70.
Proof.
  unfold Standard._calculate_requirements_score. intros ->. reflexivity.
Qed.

Lemma standard_technical_full :
  no_gaps_in "technical" gaps -> Standard._calculate_technical_score gaps = 20.
Proof.
  unfold Standard._calculate_technical_score. intros ->. reflexivity.
Qed.

Lemma standard_testing_full :
  no_gaps_in "testing" gaps -> Standard._calculate_testing_score gaps = 5.
Proof.
  unfold Standard._calculate_testing_score. intros ->. reflexivity.
Qed.

Lemma standard_context_full :
  no_gaps_in "context" gaps -> Standard._calculate_context_score gaps = 5.
Proof.
  unfold Standard._calculate_context_score. intros ->. reflexivity.
Qed.

Lemma fsec_requirements_full (d : str) :
  no_gaps_in "requirements" gaps ->
  FSEC._calculate_requirements_score d gaps = 40.
Proof.
  unfold FSEC._calculate_requirements_score. intros ->. reflexivity.
Qed.

Lemma fsec_context_full (d : str) :
  no_gaps_in "context" gaps -> FSEC._calculate_context_score d gaps = 15.
Proof.
  unfold FSEC._calculate_context_score. intros ->. reflexivity.
Qed.

End NoGaps.

(** C3, as stated, fails for the testing category of the FSEC profile: the
    analysis of [bare_task] files no gap under testing, and the testing
    score is 3, not the maximum 5. *)
Lemma fsec_testing_without_gaps_below_maximum :
  no_gaps_in "testing"
    (FSEC.gaps (FSEC.analyze (U := ascii_tables) (tracker bare_task) "K-1"))
  /\ FSEC.testing_score
       (FSEC.analyze (U := ascii_tables) (tracker bare_task) "K-1") = 3
  /\ FSEC.testing_score
       (FSEC.analyze (U := ascii_tables) (tracker bare_task) "K-1") <> 5.
Proof. vm_compute. split; [|split]; [reflexivity.. | discriminate]. Qed.

(** C3, amended: a category whose score is deducted from its gaps scores
    its maximum when the analysis files no gap under it: all four
    categories of the general profile, and the requirements and context
    categories of the FSEC profile.  The testing category of the FSEC
    profile is left out: the FSEC analysis files no gap under testing on
    any ticket. *)
Theorem category_without_gaps_scores_maximum
  {U : UnicodeData} (client : Jira) (issue_key : str) :
  let r := Standard.analyze client issue_key in
  let q := FSEC.analyze client issue_key in
  ((no_gaps_in "requirements" (Standard.gaps r) ->
    Standard.requirements_score r = 70)
   /\ (no_gaps_in "technical" (Standard.gaps r) ->
       Standard.technical_score r = 20)
   /\ (no_gaps_in "testing" (Standard.gaps r) ->
       Standard.testing_score r = 5)
   /\ (no_gaps_in "context" (Standard.gaps r) ->
       Standard.context_score r = 5))
  /\ ((no_gaps_in "requirements" (FSEC.gaps q) ->
       FSEC.requirements_score q = 40)
      /\ (no_gaps_in "context" (FSEC.gaps q) ->
          FSEC.context_score q = 15))
  /\ no_gaps_in "testing" (FSEC.gaps q).
Proof.
  intros r q.
  split; [split; [|split; [|split]] | split; [split|]].
  - apply standard_requirements_full.
  - apply standard_technical_full.
  - apply standard_testing_full.
  - apply standard_context_full.
  - apply fsec_requirements_full.
  - apply fsec_context_full.
  - apply fsec_no_testing_gaps.
Qed.

Lemma category_without_gaps_scores_maximum_witness :
  let r := Standard.analyze (U := ascii_tables) (tracker groomed_story) "K-1" in
  let q := FSEC.analyze (U := ascii_tables) (tracker groomed_story) "K-1" in
  (Standard.requirements_score r = 70 /\ Standard.technical_score r = 20
   /\ Standard.testing_score r = 5 /\ Standard.context_score r = 5)
  /\ (FSEC.requirements_score q = 40 /\ FSEC.context_score q = 15).
Proof.
  pose proof (@category_without_gaps_scores_maximum ascii_tables
                (tracker groomed_story) "K-1") as T.
  cbv zeta in T. destruct T as [[T1 [T2 [T3 T4]]] [[T5 T6] _]].
  cbv zeta. split; [split; [|split; [|split]] | split].
  - apply T1. vm_compute. reflexivity.
  - apply T2. vm_compute. reflexivity.
  - apply T3. vm_compute. reflexivity.
  - apply T4. vm_compute. reflexivity.
  - apply T5. vm_compute. reflexivity.
  - apply T6. vm_compute. reflexivity.
Defined.

(** ** Two tickets of the specification *)

(** On the empty description the first detector of each profile fires. *)
Lemma standard_ac_empty_story {U : UnicodeData} :
  Standard._check_acceptance_criteria [] "Story" = [Standard.missing_ac_gap].
Proof.
  unfold Standard._check_acceptance_criteria.
  rewrite (str_lower_ascii []) by reflexivity.
  rewrite (str_lower_ascii (lit "Story")) by reflexivity.
  vm_compute. reflexivity.
Qed.

Lemma fsec_problem_empty {U : UnicodeData} :
  FSEC._check_problem_statement [] = [FSEC.missing_problem_gap].
Proof.
  unfold FSEC._check_problem_statement.
  rewrite (str_lower_ascii []) by reflexivity.
  vm_compute. reflexivity.
Qed.

(** C6: a ticket with an empty description, no comments and a summary the
    ambiguity detector of the profile does not react to.  As a Story, the
    general profile reports the Missing Acceptance Criteria gap and a
    requirements score of 70 - 25 = 45.  As a Task, the FSEC profile reports
    the Missing Problem Statement gap and a requirements score of
    40 - 15 = 25, which meets the floor, so that the verdict is the
    comparison of the total with 60. *)
Theorem empty_ticket_requirements
  {U : UnicodeData} (client : Jira) (issue_key : str) :
  description_of client issue_key = [] ->
  comments_of client issue_key = [] ->
  let r := Standard.analyze client issue_key in
  let q := FSEC.analyze client issue_key in
  let text := text_of (summary_of client issue_key) [] [] in
  (type_of client issue_key = lit "Story" ->
   Standard._check_vague_language text = [] ->
   In Standard.missing_ac_gap (Standard.gaps r)
   /\ Standard.requirements_score r = 45)
  /\ (type_of client issue_key = lit "Task" ->
      FSEC._check_critical_ambiguity text = [] ->
      In FSEC.missing_problem_gap (FSEC.gaps q)
      /\ FSEC.requirements_score q = 25
      /\ (25 <=? FSEC.requirements_score q) = true
      /\ FSEC.ready_for_pointing q = (60 <=? FSEC.total_score q)).
Proof.
  intros Hd Hc r q text. split.
  - intros Ht Hv.
    change (Standard.requirements_score r)
      with (Standard._calculate_requirements_score (Standard.gaps r)).
    subst r. rewrite standard_gaps_eq. unfold all_text_of.
    rewrite Hd, Hc, Ht. fold text. unfold Standard.detect.
    rewrite Hv, standard_ac_empty_story.
    change (Standard._check_scope_creep []) with (@nil Gap).
    split; [left; reflexivity|].
    detector_cases; vm_compute; reflexivity.
  - intros Ht Hv.
    assert (G : FSEC.gaps q
                = FSEC.missing_problem_gap
                  :: FSEC._check_aws_context [] "Task"
                  ++ FSEC._check_implementation_clarity []
                  ++ FSEC._check_references []
                  ++ FSEC._check_security_context text).
    { subst q. rewrite fsec_gaps_eq. unfold all_text_of.
      rewrite Hd, Hc, Ht. fold text. unfold FSEC.detect.
      rewrite Hv, fsec_problem_empty. reflexivity. }
    assert (S : FSEC.requirements_score q = 25).
    { change (FSEC.requirements_score q)
        with (FSEC._calculate_requirements_score
                (description_of client issue_key) (FSEC.gaps q)).
      rewrite G. detector_cases; vm_compute; reflexivity. }
    split; [rewrite G; left; reflexivity|]. split; [exact S|].
    split; [rewrite S; reflexivity|].
    change (FSEC.ready_for_pointing q)
      with ((60 <=? FSEC.total_score q) && (25 <=? FSEC.requirements_score q)).
    rewrite S. apply andb_true_r.
Qed.

Lemma empty_ticket_requirements_witness :
  (description_of (tracker bare_story) "K-1" = []
   /\ comments_of (tracker bare_story) "K-1" = []
   /\ type_of (tracker bare_story) "K-1" = lit "Story"
   /\ Standard._check_vague_language (U := ascii_tables)
        (text_of (summary_of (tracker bare_story) "K-1") [] []) = []
   /\ In Standard.missing_ac_gap
        (Standard.gaps
           (Standard.analyze (U := ascii_tables) (tracker bare_story) "K-1"))
   /\ Standard.requirements_score
        (Standard.analyze (U := ascii_tables) (tracker bare_story) "K-1") = 45)
  /\ (description_of (tracker bare_task) "K-1" = []
      /\ comments_of (tracker bare_task) "K-1" = []
      /\ type_of (tracker bare_task) "K-1" = lit "Task"
      /\ FSEC._check_critical_ambiguity (U := ascii_tables)
           (text_of (summary_of (tracker bare_task) "K-1") [] []) = []
      /\ In FSEC.missing_problem_gap
           (FSEC.gaps
              (FSEC.analyze (U := ascii_tables) (tracker bare_task) "K-1"))
      /\ FSEC.requirements_score
           (FSEC.analyze (U := ascii_tables) (tracker bare_task) "K-1") = 25
      /\ FSEC.ready_for_pointing
           (FSEC.analyze (U := ascii_tables) (tracker bare_task) "K-1")
         = (60 <=? FSEC.total_score
                     (FSEC.analyze (U := ascii_tables) (tracker bare_task)
                        "K-1"))).
Proof.
  split.
  - do 4 (split; [vm_compute; reflexivity|]).
    apply (@empty_ticket_requirements ascii_tables (tracker bare_story) "K-1");
      vm_compute; reflexivity.
  - do 4 (split; [vm_compute; reflexivity|]).
    pose proof (@empty_ticket_requirements ascii_tables (tracker bare_task)
                  "K-1") as T.
    destruct T as [_ (G & S & _ & R)]; try (vm_compute; reflexivity).
    auto.
Defined.

(** C7: when the description contains TBD, the report of each profile holds
    a HIGH gap of the requirements category for the ambiguity, and the
    requirements score is the score of the other gaps less 25 in the general
    profile and less 15 in the FSEC profile: 70 - 25 and 40 - 15 when it is
    the only requirements gap. *)
Theorem tbd_emits_high_ambiguity_gap
  {U : UnicodeData} (client : Jira) (issue_key : str) (before after : str) :
  description_of client issue_key = before ++ lit "TBD" ++ after ->
  let r := Standard.analyze client issue_key in
  let q := FSEC.analyze client issue_key in
  let d := description_of client issue_key in
  (exists pre g post,
     Standard.gaps r = pre ++ g :: post
     /\ title g = lit "Vague or Ambiguous Requirements"
     /\ category g = lit "requirements"
     /\ severity g = lit "HIGH"
     /\ Standard.requirements_score r
        = Standard._calculate_requirements_score (pre ++ post) - 25
     /\ (no_gaps_in "requirements" (pre ++ post) ->
         Standard.requirements_score r = 70 - 25))
  /\ (exists pre g post,
        FSEC.gaps q = pre ++ g :: post
        /\ title g = lit "Critical Ambiguity"
        /\ category g = lit "requirements"
        /\ severity g = lit "HIGH"
        /\ FSEC.requirements_score q
           = FSEC._calculate_requirements_score d (pre ++ post) - 15
        /\ (no_gaps_in "requirements" (pre ++ post) ->
            FSEC.requirements_score q = 40 - 15)).
Proof.
  intros H r q d.
  set (t := type_of client issue_key).
  set (text := all_text_of client issue_key).
  assert (Ht : PyStr.contains "TBD" text = true)
    by (apply contains_text_of, contains_iff; eauto).
  split.
  - destruct (standard_vague_fires _ Ht) as [ex E].
    assert (S : Standard.requirements_score r
                = Standard._calculate_requirements_score
                    (Standard._check_acceptance_criteria d t
                     ++ Standard._check_technical_context d t
                     ++ Standard._check_dependencies text (client issue_key)
                     ++ Standard._check_test_scenarios text t
                     ++ Standard._check_scope_creep
                          (comments_of client issue_key)
                     ++ Standard._check_security_context text) - 25).
    { change (Standard.requirements_score r)
        with (Standard._calculate_requirements_score (Standard.gaps r)).
      subst r d t. rewrite standard_gaps_eq. unfold Standard.detect.
      fold text. rewrite E. detector_cases; vm_compute; reflexivity. }
    eexists _, (Standard.vague_gap ex), _.
    split; [|split; [|split; [|split; [|split]]]]; try reflexivity.
    + subst r. rewrite standard_gaps_eq. unfold Standard.detect.
      fold text. rewrite E. reflexivity.
    + exact S.
    + intros N. rewrite S. f_equal.
      apply standard_requirements_full. exact N.
  - destruct (fsec_critical_fires _ Ht) as [fc E].
    assert (S : FSEC.requirements_score q
                = FSEC._calculate_requirements_score d
                    (FSEC._check_problem_statement d
                     ++ FSEC._check_aws_context d t
                     ++ FSEC._check_implementation_clarity d
                     ++ FSEC._check_references d
                     ++ FSEC._check_security_context text) - 15).
    { change (FSEC.requirements_score q)
        with (FSEC._calculate_requirements_score d (FSEC.gaps q)).
      subst q d t. rewrite fsec_gaps_eq. unfold FSEC.detect.
      fold text. rewrite E. detector_cases; vm_compute; reflexivity. }
    eexists _, (FSEC.critical_gap fc), _.
    split; [|split; [|split; [|split; [|split]]]]; try reflexivity.
    + subst q. rewrite fsec_gaps_eq. unfold FSEC.detect.
      fold text. rewrite E. reflexivity.
    + exact S.
    + intros N. rewrite S. f_equal.
      apply fsec_requirements_full. exact N.
Qed.

Lemma tbd_emits_high_ambiguity_gap_witness :
  description_of (tracker open_ended_task) "K-1"
  = lit "Given a key, when it expires, then rotate it. Rollout date is "
    ++ lit "TBD" ++ lit "."
  /\ (exists pre g post,
        Standard.gaps
          (Standard.analyze (U := ascii_tables) (tracker open_ended_task) "K-1")
        = pre ++ g :: post
        /\ title g = lit "Vague or Ambiguous Requirements"
        /\ Standard.requirements_score
             (Standard.analyze (U := ascii_tables) (tracker open_ended_task)
                "K-1")
           = Standard._calculate_requirements_score (pre ++ post) - 25)
  /\ (exists pre g post,
        FSEC.gaps
          (FSEC.analyze (U := ascii_tables) (tracker open_ended_task) "K-1")
        = pre ++ g :: post
        /\ title g = lit "Critical Ambiguity"
        /\ FSEC.requirements_score
             (FSEC.analyze (U := ascii_tables) (tracker open_ended_task) "K-1")
           = FSEC._calculate_requirements_score
               (description_of (tracker open_ended_task) "K-1") (pre ++ post)
             - 15).
Proof.
  split; [vm_compute; reflexivity|].
  destruct (@tbd_emits_high_ambiguity_gap ascii_tables
              (tracker open_ended_task) "K-1"
              "Given a key, when it expires, then rotate it. Rollout date is "
              ".")
    as [(pre & g & post & G & T & _ & _ & S & _)
        (pre' & g' & post' & G' & T' & _ & _ & S' & _)];
    [vm_compute; reflexivity|].
  split.
  - exists pre, g, post. auto.
  - exists pre', g', post'. auto.
Defined.

(** ** Keywords are matched as raw substrings *)

(** What the three patterns of the acceptance criteria check each need in
    the text: a letter g, and one of the characters of the list class. *)
Section CriteriaPatterns.
Context {U : UnicodeData}.

Lemma scan_needs_first_letter (c : char) (w rest : Re.regex) (s : str)
      (prev : option char) :
  lacks (N.eqb c) s ->
  Re.scan false (Re.Cat Re.WordB (Re.Cat (Re.Cat (Re.Lit c) w) rest)) prev s
  = None.
Proof.
  unfold lacks. revert prev. induction s as [|x s IH]; intros prev H.
  - cbn [Re.scan]. unfold Re.match_here. cbn [Re.exec].
    destruct (Re.at_boundary prev []); reflexivity.
  - simpl in H. apply orb_false_elim in H as [Hx Hs].
    cbn [Re.scan]. unfold Re.match_here at 1. cbn [Re.exec].
    unfold Re.lit_match. rewrite Hx.
    destruct (Re.at_boundary prev (x :: s)); apply IH, Hs.
Qed.

Lemma scan_needs_class (cs : Re.cset) (rest : Re.regex) (s : str)
      (prev : option char) :
  lacks (Re.in_cset cs) s ->
  Re.scan false (Re.Cat (Re.Set_ cs) rest) prev s = None.
Proof.
  unfold lacks. revert prev. induction s as [|x s IH]; intros prev H.
  - reflexivity.
  - simpl in H. apply orb_false_elim in H as [Hx Hs].
    cbn [Re.scan]. unfold Re.match_here at 1. cbn [Re.exec].
    rewrite Hx. apply IH, Hs.
Qed.

Lemma rep_then_class (A : Type) (cs' cs : Re.cset) (rest : Re.regex)
      (s : str) (prev : option char) (k : option char -> str -> option A) :
  lacks (Re.in_cset cs) s ->
  Re.rep cs' 0 None prev s
    (fun p' s' => Re.exec false (Re.Cat (Re.Set_ cs) rest) p' s' k) = None.
Proof.
  unfold lacks. revert prev. induction s as [|x s IH]; intros prev H.
  - reflexivity.
  - simpl in H. apply orb_false_elim in H as [Hx Hs].
    cbn [Re.rep Re.room Re.dec option_map pred andb].
    rewrite (IH (Some x) Hs). cbn [Re.exec]. rewrite Hx.
    destruct (Re.in_cset cs' x); reflexivity.
Qed.

Lemma scan_needs_class_after_spaces (cs' cs : Re.cset) (rest : Re.regex)
      (s : str) (prev : option char) :
  lacks (Re.in_cset cs) s ->
  Re.scan false
    (Re.Cat Re.Bol (Re.Cat (Re.star cs') (Re.Cat (Re.Set_ cs) rest))) prev s
  = None.
Proof.
  intros H.
  assert (M : forall prev s, lacks (Re.in_cset cs) s ->
              Re.match_here false
                (Re.Cat Re.Bol
                   (Re.Cat (Re.star cs') (Re.Cat (Re.Set_ cs) rest)))
                prev s = None).
  { clear. intros prev s H. unfold Re.match_here, Re.star. cbn [Re.exec].
    destruct prev as [c|];
      [destruct (N.eqb c PyStr.newline); [|reflexivity]|];
      apply (rep_then_class _ _ _ _ H). }
  revert prev. induction s as [|x s IH]; intros prev.
  - cbn [Re.scan]. rewrite (M prev [] H). reflexivity.
  - cbn [Re.scan]. rewrite (M prev (x :: s) H). apply IH.
    unfold lacks in *. simpl in H. apply orb_false_elim in H. tauto.
Qed.

(** The description "authentication" has no Given/When/Then, no checkbox
    and no bullet. *)
Lemma authentication_has_no_criteria_format :
  Re.found false Standard.gwt_pattern "authentication" = false
  /\ Re.found false Standard.checkbox_pattern "authentication" = false
  /\ Re.found false Standard.bullet_pattern "authentication" = false.
Proof.
  unfold Re.found, Re.search. split; [|split].
  - assert (E : exists w rest,
               Standard.gwt_pattern
               = Re.Cat Re.WordB (Re.Cat (Re.Cat (Re.Lit 103%N) w) rest))
      by (eexists _, _; vm_compute; reflexivity).
    destruct E as (w & rest & ->).
    rewrite scan_needs_first_letter; reflexivity.
  - unfold Standard.checkbox_pattern. cbn [Re.seq].
    rewrite scan_needs_class; reflexivity.
  - unfold Standard.bullet_pattern. cbn [Re.seq].
    rewrite scan_needs_class_after_spaces; reflexivity.
Qed.

End CriteriaPatterns.

(** A keyword of the acceptance criteria in the lowered description is all
    the detector asks for. *)
Lemma standard_ac_keyword_suffices {U : UnicodeData} (d t : str) :
  PyStr.any_in Standard.AC_KEYWORDS (str_lower d) = true ->
  Standard._check_acceptance_criteria d t = [].
Proof.
  intros H. unfold Standard._check_acceptance_criteria. rewrite H.
  reflexivity.
Qed.

(** C9: the description "authentication" states no acceptance criteria: it
    has no Given/When/Then, no checkbox and no bullet.  Yet the keyword
    "then" occurs in it as a substring (and no other keyword does), which
    satisfies the acceptance criteria check: no Missing Acceptance Criteria
    gap is reported and the strength Has acceptance criteria is. *)
Theorem then_inside_authentication_passes_for_criteria
  {U : UnicodeData} (client : Jira) (issue_key : str) :
  description_of client issue_key = lit "authentication" ->
  let r := Standard.analyze client issue_key in
  let description := lit "authentication" in
  let desc_lower := str_lower description in
  (Re.found false Standard.gwt_pattern desc_lower = false
   /\ Re.found false Standard.checkbox_pattern description = false
   /\ Re.found false Standard.bullet_pattern description = false)
  /\ filter (fun kw => PyStr.contains kw desc_lower) Standard.AC_KEYWORDS
     = [lit "then"]
  /\ Standard._check_acceptance_criteria description
       (type_of client issue_key) = []
  /\ existsb (fun g => PyStr.eqb (title g) "Missing Acceptance Criteria")
       (Standard.gaps r) = false
  /\ In (lit "Has acceptance criteria") (Standard.strengths r).
Proof.
  intros Hd r description desc_lower.
  assert (L : desc_lower = lit "authentication")
    by (apply (str_lower_ascii (lit "authentication")); reflexivity).
  assert (K : PyStr.any_in Standard.AC_KEYWORDS (str_lower description)
              = true)
    by (fold desc_lower; rewrite L; reflexivity).
  split; [rewrite L; apply authentication_has_no_criteria_format|].
  split; [rewrite L; reflexivity|].
  split; [apply standard_ac_keyword_suffices, K|].
  split.
  - subst r. rewrite standard_gaps_eq, Hd. unfold Standard.detect.
    rewrite (standard_ac_keyword_suffices _ _ K).
    detector_cases; vm_compute; reflexivity.
  - subst r. unfold Standard.analyze. cbv zeta. cbn [Standard.strengths].
    fold (description_of client issue_key). rewrite Hd.
    unfold Standard._identify_strengths. fold description. rewrite K.
    left. reflexivity.
Qed.

Lemma then_inside_authentication_passes_for_criteria_witness :
  description_of (tracker authentication_story) "K-1" = lit "authentication"
  /\ In (lit "Has acceptance criteria")
       (Standard.strengths
          (Standard.analyze (U := ascii_tables) (tracker authentication_story)
             "K-1")).
Proof.
  split; [reflexivity|].
  apply (@then_inside_authentication_passes_for_criteria ascii_tables
           (tracker authentication_story) "K-1").
  reflexivity.
Defined.

(** * Further properties of the analyzers *)

(** ** Reports as functions of the detected gaps *)

(** Unfold a report into the detectors and scores it is built from. *)
Ltac open_standard :=
  unfold Standard.analyze; cbv zeta;
  cbn [Standard.gaps Standard.strengths Standard.requirements_score
       Standard.technical_score Standard.testing_score
       Standard.context_score Standard.total_score
       Standard.ready_for_pointing];
  unfold Standard.detect.

Ltac open_fsec :=
  unfold FSEC.analyze; cbv zeta;
  cbn [FSEC.gaps FSEC.strengths FSEC.requirements_score
       FSEC.technical_score FSEC.testing_score FSEC.context_score
       FSEC.total_score FSEC.ready_for_pointing];
  unfold FSEC.detect.

(** Settle a goal in which every detector has been replaced by its
    outcome. *)
Ltac settle :=
  vm_compute;
  repeat split; intros;
  try reflexivity; try discriminate;
  repeat (try (left; reflexivity); right).

(** ** Order and kind of the reported gaps *)

(** X1: the gaps of a report of the general profile are listed in the order
    the detectors run, each title at most once, so there are at most seven;
    each carries one of the four categories and one of the three
    severities. *)
Theorem standard_gaps_follow_detector_order
  {U : UnicodeData} (client : Jira) (issue_key : str) :
  let gaps := Standard.gaps (Standard.analyze client issue_key) in
  subseq (map title gaps) standard_titles = true
  /\ (List.length gaps <= 7)%nat
  /\ forallb (fun g => known_category g && known_severity g) gaps = true.
Proof.
  open_standard. detector_cases; vm_compute; repeat split; lia.
Qed.

(** X2: the same for the FSEC profile and its six detectors. *)
Theorem fsec_gaps_follow_detector_order
  {U : UnicodeData} (client : Jira) (issue_key : str) :
  let gaps := FSEC.gaps (FSEC.analyze client issue_key) in
  subseq (map title gaps) fsec_titles = true
  /\ (List.length gaps <= 6)%nat
  /\ forallb (fun g => known_category g && known_severity g) gaps = true.
Proof.
  open_fsec. detector_cases; vm_compute; repeat split; lia.
Qed.

(** ** The scores a ticket can get *)

(** X3: in the general profile the final [max(0, score)] never cuts
    anything off for the gaps the detectors can report: the requirements
    score is one of 70, 60, 45, 35, 20, 10, the technical score one of 20,
    12, 4, testing and context are 5 or 0, and no ticket totals less
    than 14. *)
Theorem standard_scores_of_a_ticket
  {U : UnicodeData} (client : Jira) (issue_key : str) :
  let r := Standard.analyze client issue_key in
  In (Standard.requirements_score r) [70; 60; 45; 35; 20; 10]
  /\ In (Standard.technical_score r) [20; 12; 4]
  /\ In (Standard.testing_score r) [5; 0]
  /\ In (Standard.context_score r) [5; 0]
  /\ 14 <= Standard.total_score r.
Proof.
  open_standard. detector_cases; settle.
Qed.

(** X4: in the FSEC profile the requirements score is one of 40, 25, 10 and
    the context score one of 15, 13, 10, 8: neither reaches the final
    [max(0, score)], and no ticket totals less than 21. *)
Theorem fsec_scores_of_a_ticket
  {U : UnicodeData} (client : Jira) (issue_key : str) :
  let q := FSEC.analyze client issue_key in
  In (FSEC.requirements_score q) [40; 25; 10]
  /\ In (FSEC.context_score q) [15; 13; 10; 8]
  /\ 21 <= FSEC.total_score q.
Proof.
  intros q.
  assert (R : In (FSEC.requirements_score q) [40; 25; 10])
    by (subst q; open_fsec; detector_cases; settle).
  assert (C : In (FSEC.context_score q) [15; 13; 10; 8])
    by (subst q; open_fsec; detector_cases; settle).
  split; [exact R|]. split; [exact C|].
  assert (T : FSEC.total_score q
              = FSEC.requirements_score q + FSEC.technical_score q
                + FSEC.context_score q + FSEC.testing_score q)
    by reflexivity.
  assert (0 <= FSEC.technical_score q)
    by (apply (fsec_technical_range (FSEC.gaps q))).
  assert (FSEC.testing_score q = 3 \/ FSEC.testing_score q = 5)
    by (apply fsec_testing_values).
  unfold In in R, C. lia.
Qed.

(** ** What the verdict amounts to *)

(** X5: in the general profile a ticket is ready exactly when its total is
    at least 75 and it has no HIGH gap in the requirements category; the
    floor of 50 only ever decides at a total of exactly 75, and a ticket
    with the Missing Acceptance Criteria gap or the Vague or Ambiguous
    Requirements gap is never ready. *)
Theorem standard_ready_iff_no_high_requirement_gap
  {U : UnicodeData} (client : Jira) (issue_key : str) :
  let r := Standard.analyze client issue_key in
  Standard.ready_for_pointing r
  = (75 <=? Standard.total_score r)
    && negb (existsb high_requirement (Standard.gaps r))
  /\ ((76 <=? Standard.total_score r) = true ->
      Standard.ready_for_pointing r = true)
  /\ (has_gap "Missing Acceptance Criteria" (Standard.gaps r) = true ->
      Standard.ready_for_pointing r = false)
  /\ (has_gap "Vague or Ambiguous Requirements" (Standard.gaps r) = true ->
      Standard.ready_for_pointing r = false).
Proof.
  open_standard. detector_cases; settle.
Qed.

(** X6: in the FSEC profile a ticket is ready exactly when its total is at
    least 60 and it does not have both the Missing Problem Statement and
    the Critical Ambiguity gap. *)
Theorem fsec_ready_iff_not_both_high_gaps
  {U : UnicodeData} (client : Jira) (issue_key : str) :
  let q := FSEC.analyze client issue_key in
  FSEC.ready_for_pointing q
  = (60 <=? FSEC.total_score q)
    && negb (has_gap "Missing Problem Statement" (FSEC.gaps q)
             && has_gap "Critical Ambiguity" (FSEC.gaps q)).
Proof.
  intros q.
  assert (F : (25 <=? FSEC.requirements_score q)
              = negb (has_gap "Missing Problem Statement" (FSEC.gaps q)
                      && has_gap "Critical Ambiguity" (FSEC.gaps q)))
    by (subst q; open_fsec; detector_cases; settle).
  rewrite <- F. reflexivity.
Qed.

(** X7: no positive indicator, no readiness.  A ticket whose description
    has no infrastructure keyword, no implementation keyword and no
    reference, and whose text has no test keyword, totals at most 58 in the
    FSEC profile and is never ready, whatever else it says. *)
Theorem fsec_needs_positive_evidence
  {U : UnicodeData} (client : Jira) (issue_key : str) :
  let q := FSEC.analyze client issue_key in
  let d := description_of client issue_key in
  PyStr.any_in FSEC.AWS_KEYWORDS (str_lower d) = false ->
  PyStr.any_in FSEC.IMPLEMENTATION_KEYWORDS (str_lower d) = false ->
  PyStr.contains "github.com" d || PyStr.contains "slack.com" d
  || Re.found false FSEC.jira_pattern d = false ->
  PyStr.any_in FSEC.TEST_KEYWORDS (str_lower (all_text_of client issue_key))
  = false ->
  FSEC.technical_score q = 0
  /\ FSEC.total_score q <= 58
  /\ FSEC.ready_for_pointing q = false.
Proof.
  intros q d Ha Hi Hr Ht.
  assert (T : FSEC.technical_score q = 0).
  { change (FSEC.technical_score q)
      with (FSEC._calculate_technical_score d (client issue_key)
              (FSEC.gaps q)).
    unfold FSEC._calculate_technical_score. rewrite Ha, Hi, Hr. cbv zeta.
    pose proof (count_nonneg (has_severity "MEDIUM")
                  (filter (in_category "technical") (FSEC.gaps q))).
    lia. }
  assert (S : FSEC.testing_score q = 3).
  { change (FSEC.testing_score q)
      with (FSEC._calculate_testing_score (all_text_of client issue_key)).
    rewrite fsec_testing_score_eq, Ht. reflexivity. }
  assert (L : FSEC.total_score q <= 58).
  { change (FSEC.total_score q)
      with (FSEC.requirements_score q + FSEC.technical_score q
            + FSEC.context_score q + FSEC.testing_score q).
    rewrite T, S.
    pose proof (fsec_requirements_range (FSEC.gaps q) d).
    pose proof (fsec_context_range (FSEC.gaps q) d).
    change (FSEC._calculate_requirements_score d (FSEC.gaps q))
      with (FSEC.requirements_score q) in *.
    change (FSEC._calculate_context_score d (FSEC.gaps q))
      with (FSEC.context_score q) in *.
    lia. }
  repeat split; auto.
  change (FSEC.ready_for_pointing q)
    with ((60 <=? FSEC.total_score q) && (25 <=? FSEC.requirements_score q)).
  apply andb_false_iff. left. apply Z.leb_gt. lia.
Qed.

Lemma fsec_needs_positive_evidence_witness :
  PyStr.any_in FSEC.AWS_KEYWORDS
    (@str_lower ascii_tables (description_of (tracker wordy_task) "K-1"))
  = false
  /\ FSEC.total_score
       (FSEC.analyze (U := ascii_tables) (tracker wordy_task) "K-1") <= 58
  /\ FSEC.ready_for_pointing
       (FSEC.analyze (U := ascii_tables) (tracker wordy_task) "K-1") = false.
Proof.
  split; [vm_compute; reflexivity|].
  apply (@fsec_needs_positive_evidence ascii_tables (tracker wordy_task)
           "K-1"); vm_compute; reflexivity.
Defined.

(** ** Strengths and gaps *)

Lemma in_strength (c : bool) (label : string) (x : str) :
  In x (strength c label) -> c = true /\ x = lit label.
Proof. destruct c; simpl; intuition. Qed.

Lemma lit_neq (a b : string) :
  PyStr.eqb (lit a) (lit b) = false -> lit a = lit b -> False.
Proof. intros H E. apply pystr_eqb_eq in E. congruence. Qed.

(** Find the condition under which a label is among the strengths. *)
Ltac which_strength H :=
  repeat (apply in_app_or in H as [H | H]);
  apply in_strength in H as [H E];
  first [exact H | exfalso; revert E; apply lit_neq; reflexivity].

Section StrengthsAndGaps.
Context {U : UnicodeData}.

Lemma standard_test_keyword_suffices (text t : str) :
  PyStr.any_in Standard.TEST_KEYWORDS (str_lower text) = true ->
  Standard._check_test_scenarios text t = [].
Proof.
  intros H. unfold Standard._check_test_scenarios. rewrite H. reflexivity.
Qed.

Lemma standard_tech_keyword_suffices (d t : str) :
  PyStr.any_in Standard.TECH_KEYWORDS (str_lower d) = true ->
  Standard._check_technical_context d t = [].
Proof.
  intros H. unfold Standard._check_technical_context. rewrite H.
  destruct (PyStr.mem _ _); reflexivity.
Qed.

Lemma standard_links_suffice (text : str) (issue : Issue) :
  nonempty (f_issuelinks (fields issue)) = true ->
  Standard._check_dependencies text issue = [].
Proof.
  intros H. unfold Standard._check_dependencies. rewrite H.
  cbn [negb]. rewrite andb_false_r. reflexivity.
Qed.

Lemma fsec_problem_word_suffices (d : str) :
  PyStr.any_in FSEC.PROBLEM_INDICATORS (str_lower d) = true ->
  FSEC._check_problem_statement d = [].
Proof.
  intros H. unfold FSEC._check_problem_statement. rewrite H. reflexivity.
Qed.

Lemma fsec_aws_keyword_suffices (d t : str) :
  PyStr.any_in FSEC.AWS_KEYWORDS (str_lower d) = true ->
  FSEC._check_aws_context d t = [].
Proof.
  intros H. unfold FSEC._check_aws_context. rewrite H.
  destruct (PyStr.mem _ _); reflexivity.
Qed.

Lemma fsec_action_keyword_suffices (d : str) :
  PyStr.any_in FSEC.IMPLEMENTATION_KEYWORDS (str_lower d) = true ->
  FSEC._check_implementation_clarity d = [].
Proof.
  intros H. unfold FSEC._check_implementation_clarity. rewrite H.
  reflexivity.
Qed.

Lemma fsec_link_suffices (d : str) :
  PyStr.contains "github.com" d = true \/ PyStr.contains "slack.com" d = true ->
  FSEC._check_references d = [].
Proof.
  intros H. unfold FSEC._check_references.
  destruct H as [-> | ->]; rewrite ?orb_true_r; reflexivity.
Qed.

Lemma fsec_length_suffices (d t : str) :
  200 < PyStr.len d ->
  FSEC._check_aws_context d t = []
  /\ FSEC._check_implementation_clarity d = []
  /\ FSEC._check_references d = [].
Proof.
  intros H.
  assert (L : (PyStr.len d <? 100) = false) by (apply Z.ltb_ge; lia).
  assert (G : (100 <? PyStr.len d) = true) by (apply Z.ltb_lt; lia).
  unfold FSEC._check_aws_context, FSEC._check_implementation_clarity,
    FSEC._check_references.
  rewrite L, G, !andb_false_r. destruct (PyStr.mem _ _); auto.
Qed.

(** X8: in the general profile a strength rules out the gap on the same
    subject: a ticket credited with acceptance criteria, test scenarios,
    technical context or linked dependencies is not reported as missing
    them. *)
Theorem standard_strength_excludes_its_gap
  (client : Jira) (issue_key : str) :
  let r := Standard.analyze client issue_key in
  (In (lit "Has acceptance criteria") (Standard.strengths r) ->
   has_gap "Missing Acceptance Criteria" (Standard.gaps r) = false)
  /\ (In (lit "Test scenarios discussed") (Standard.strengths r) ->
      has_gap "No Test Scenarios" (Standard.gaps r) = false)
  /\ (In (lit "Technical context provided") (Standard.strengths r) ->
      has_gap "No Technical Context" (Standard.gaps r) = false)
  /\ (In (lit "Dependencies linked") (Standard.strengths r) ->
      has_gap "Missing Dependencies" (Standard.gaps r) = false).
Proof.
  open_standard. unfold Standard._identify_strengths.
  split; [|split; [|split]]; intros H.
  - rewrite standard_ac_keyword_suffices by which_strength H.
    detector_cases; settle.
  - rewrite standard_test_keyword_suffices by which_strength H.
    detector_cases; settle.
  - rewrite standard_tech_keyword_suffices by which_strength H.
    detector_cases; settle.
  - rewrite standard_links_suffice by which_strength H.
    detector_cases; settle.
Qed.

(** X9: the same in the FSEC profile: a clear problem, AWS context, a clear
    implementation approach, a code reference or a Slack thread rule out the
    gap on that subject, and a description of more than 200 characters rules
    out all three of Limited AWS Context, Unclear Implementation and No
    References. *)
Theorem fsec_strength_excludes_its_gap
  (client : Jira) (issue_key : str) :
  let q := FSEC.analyze client issue_key in
  (In (lit "Clear problem or request") (FSEC.strengths q) ->
   has_gap "Missing Problem Statement" (FSEC.gaps q) = false)
  /\ (In (lit "AWS infrastructure context") (FSEC.strengths q) ->
      has_gap "Limited AWS Context" (FSEC.gaps q) = false)
  /\ (In (lit "Clear implementation approach") (FSEC.strengths q) ->
      has_gap "Unclear Implementation" (FSEC.gaps q) = false)
  /\ (In (lit "Code references") (FSEC.strengths q)
      \/ In (lit "Slack thread linked") (FSEC.strengths q) ->
      has_gap "No References" (FSEC.gaps q) = false)
  /\ (In (lit "Detailed description") (FSEC.strengths q) ->
      has_gap "Limited AWS Context" (FSEC.gaps q) = false
      /\ has_gap "Unclear Implementation" (FSEC.gaps q) = false
      /\ has_gap "No References" (FSEC.gaps q) = false).
Proof.
  open_fsec. unfold FSEC._identify_strengths.
  split; [|split; [|split; [|split]]]; intros H.
  - rewrite fsec_problem_word_suffices by which_strength H.
    detector_cases; settle.
  - rewrite fsec_aws_keyword_suffices by which_strength H.
    detector_cases; settle.
  - rewrite fsec_action_keyword_suffices by which_strength H.
    detector_cases; settle.
  - rewrite fsec_link_suffices
      by (destruct H as [H | H]; [left | right]; which_strength H).
    detector_cases; settle.
  - assert (L : 200 < PyStr.len
                        (get (f_description (fields (client issue_key))) []))
      by (apply Z.ltb_lt; which_strength H).
    destruct (fsec_length_suffices _
                (get (f_issuetype (fields (client issue_key)))
                   (lit "Unknown")) L) as (-> & -> & ->).
    detector_cases; settle.
Qed.

End StrengthsAndGaps.

Lemma standard_strength_excludes_its_gap_witness :
  In (lit "Has acceptance criteria")
    (Standard.strengths
       (Standard.analyze (U := ascii_tables) (tracker groomed_story) "K-1"))
  /\ has_gap "Missing Acceptance Criteria"
       (Standard.gaps
          (Standard.analyze (U := ascii_tables) (tracker groomed_story) "K-1"))
     = false.
Proof.
  assert (H : In (lit "Has acceptance criteria")
                (Standard.strengths
                   (Standard.analyze (U := ascii_tables)
                      (tracker groomed_story) "K-1")))
    by (vm_compute; auto).
  split; [exact H|].
  destruct (@standard_strength_excludes_its_gap ascii_tables
              (tracker groomed_story) "K-1") as [T _].
  exact (T H).
Defined.

Lemma fsec_strength_excludes_its_gap_witness :
  In (lit "AWS infrastructure context")
    (FSEC.strengths
       (FSEC.analyze (U := ascii_tables) (tracker groomed_story) "K-1"))
  /\ has_gap "Limited AWS Context"
       (FSEC.gaps
          (FSEC.analyze (U := ascii_tables) (tracker groomed_story) "K-1"))
     = false.
Proof.
  assert (H : In (lit "AWS infrastructure context")
                (FSEC.strengths
                   (FSEC.analyze (U := ascii_tables)
                      (tracker groomed_story) "K-1")))
    by (vm_compute; auto).
  split; [exact H|].
  destruct (@fsec_strength_excludes_its_gap ascii_tables
              (tracker groomed_story) "K-1") as [_ [T _]].
  exact (T H).
Defined.

(** ** The technical score of the FSEC profile, by indicators *)

Section FsecTechnical.
Context {U : UnicodeData}.

(** The only technical gaps are those of the AWS and of the implementation
    detector. *)
Lemma fsec_technical_deductions (d text t : str) :
  count (has_severity "MEDIUM")
    (filter (in_category "technical") (FSEC.detect d text t))
  = bool_to_Z (nonempty (FSEC._check_aws_context d t))
    + bool_to_Z (nonempty (FSEC._check_implementation_clarity d)).
Proof.
  unfold FSEC.detect. detector_cases; vm_compute; reflexivity.
Qed.

(** Each of the two reports a gap only where its indicator is absent. *)
Lemma fsec_aws_gap_inv (d t : str) :
  nonempty (FSEC._check_aws_context d t) = true ->
  PyStr.any_in FSEC.AWS_KEYWORDS (str_lower d) = false
  /\ PyStr.len d < 100.
Proof.
  unfold FSEC._check_aws_context.
  destruct (PyStr.mem _ _); [discriminate|].
  destruct (PyStr.any_in _ _); [discriminate|].
  destruct (Z.ltb_spec (PyStr.len d) 100); [auto | discriminate].
Qed.

Lemma fsec_implementation_gap_inv (d : str) :
  nonempty (FSEC._check_implementation_clarity d) = true ->
  PyStr.any_in FSEC.IMPLEMENTATION_KEYWORDS (str_lower d) = false
  /\ PyStr.len d <= 100.
Proof.
  unfold FSEC._check_implementation_clarity.
  destruct (PyStr.any_in _ _); [discriminate|].
  destruct (Z.ltb_spec 100 (PyStr.len d)); [discriminate | auto].
Qed.

Lemma bool_to_Z_cases (b : bool) :
  (b = true /\ bool_to_Z b = 1) \/ (b = false /\ bool_to_Z b = 0).
Proof. destruct b; auto. Qed.

(** X10: the technical score of the FSEC profile is the full 40 exactly
    when the description has an infrastructure keyword, an implementation
    keyword and a reference; and a description of more than 100 characters
    is never deducted from: its technical score is the plain sum of the
    points of its indicators. *)
Theorem fsec_technical_score_by_indicators
  (client : Jira) (issue_key : str) :
  let q := FSEC.analyze client issue_key in
  let d := description_of client issue_key in
  let aws := PyStr.any_in FSEC.AWS_KEYWORDS (str_lower d) in
  let action := PyStr.any_in FSEC.IMPLEMENTATION_KEYWORDS (str_lower d) in
  let refs :=
    PyStr.contains "github.com" d || PyStr.contains "slack.com" d
    || Re.found false FSEC.jira_pattern d in
  (FSEC.technical_score q = 40
   <-> aws = true /\ action = true /\ refs = true)
  /\ (100 < PyStr.len d ->
      FSEC.technical_score q
      = 15 * bool_to_Z aws + 15 * bool_to_Z action + 10 * bool_to_Z refs).
Proof.
  intros q d aws action refs.
  assert (E : FSEC.technical_score q
              = Z.min 40
                  (Z.max 0
                     (15 * bool_to_Z aws + 15 * bool_to_Z action
                      + 10 * bool_to_Z refs
                      - 5 * (bool_to_Z
                               (nonempty
                                  (FSEC._check_aws_context d
                                     (type_of client issue_key)))
                             + bool_to_Z
                                 (nonempty
                                    (FSEC._check_implementation_clarity
                                       d)))))).
  { rewrite <- fsec_technical_deductions
      with (text := all_text_of client issue_key).
    subst q. unfold FSEC.analyze. cbv zeta. cbn [FSEC.technical_score].
    unfold FSEC._calculate_technical_score.
    fold (description_of client issue_key). fold d. fold aws action refs.
    fold (type_of client issue_key).
    change (text_of _ d _) with (all_text_of client issue_key).
    destruct aws, action, refs; cbv zeta; unfold bool_to_Z;
      f_equal; f_equal; lia. }
  pose proof (@fsec_aws_gap_inv d (type_of client issue_key)) as A.
  pose proof (@fsec_implementation_gap_inv d) as I.
  fold aws in A. fold action in I.
  destruct (bool_to_Z_cases
              (nonempty (FSEC._check_aws_context d
                           (type_of client issue_key)))) as [[Ga Za] | [Ga Za]];
    destruct (bool_to_Z_cases
                (nonempty (FSEC._check_implementation_clarity d)))
      as [[Gi Zi] | [Gi Zi]];
    rewrite E, Za, Zi; clear E Za Zi;
    try (destruct (A Ga) as [A1 A2]); try (destruct (I Gi) as [I1 I2]);
    clear A I;
    (split; [split|]);
    try (intros [Ha [Hi Hr]]); try intros H;
    try congruence;
    destruct aws, action, refs; unfold bool_to_Z in *;
    try discriminate; try lia; try (repeat split; reflexivity).
Qed.

End FsecTechnical.

Lemma fsec_technical_score_by_indicators_witness :
  100 < PyStr.len (description_of (tracker wordy_task) "K-1")
  /\ FSEC.technical_score
       (FSEC.analyze (U := ascii_tables) (tracker wordy_task) "K-1")
     = 15 * bool_to_Z
              (PyStr.any_in FSEC.AWS_KEYWORDS
                 (@str_lower ascii_tables
                    (description_of (tracker wordy_task) "K-1")))
       + 15 * bool_to_Z
                (PyStr.any_in FSEC.IMPLEMENTATION_KEYWORDS
                   (@str_lower ascii_tables
                      (description_of (tracker wordy_task) "K-1")))
       + 10 * bool_to_Z
                (PyStr.contains "github.com"
                   (description_of (tracker wordy_task) "K-1")
                 || PyStr.contains "slack.com"
                      (description_of (tracker wordy_task) "K-1")
                 || Re.found (U := ascii_tables) false FSEC.jira_pattern
                      (description_of (tracker wordy_task) "K-1")).
Proof.
  assert (L : 100 < PyStr.len (description_of (tracker wordy_task) "K-1"))
    by (vm_compute; reflexivity).
  split; [exact L|].
  apply (@fsec_technical_score_by_indicators ascii_tables
           (tracker wordy_task) "K-1"). exact L.
Defined.

(** ** Thresholds and exemptions of the detectors *)

Section Thresholds.
Context {U : UnicodeData}.

(** X11: the two length thresholds of the FSEC technical detectors differ
    by one.  For a description without infrastructure and implementation
    keywords (and a type other than spike and research) Limited AWS Context
    is reported below 100 characters, Unclear Implementation up to and
    including 100. *)
Theorem fsec_length_thresholds_differ
  (client : Jira) (issue_key : str) :
  let q := FSEC.analyze client issue_key in
  let d := description_of client issue_key in
  PyStr.any_in FSEC.AWS_KEYWORDS (str_lower d) = false ->
  PyStr.any_in FSEC.IMPLEMENTATION_KEYWORDS (str_lower d) = false ->
  PyStr.mem (str_lower (type_of client issue_key))
    (strs ["spike"; "research"]) = false ->
  has_gap "Limited AWS Context" (FSEC.gaps q) = (PyStr.len d <? 100)
  /\ has_gap "Unclear Implementation" (FSEC.gaps q) = (PyStr.len d <=? 100).
Proof.
  intros q d Ha Hi Ht.
  assert (A : FSEC._check_aws_context d (type_of client issue_key)
              = if PyStr.len d <? 100 then [FSEC.limited_aws_gap] else [])
    by (unfold FSEC._check_aws_context; rewrite Ht, Ha; reflexivity).
  assert (I : FSEC._check_implementation_clarity d
              = if PyStr.len d <=? 100
                then [FSEC.unclear_implementation_gap] else []).
  { unfold FSEC._check_implementation_clarity. rewrite Hi.
    rewrite (Z.ltb_antisym (PyStr.len d) 100), negb_involutive.
    reflexivity. }
  subst q. rewrite fsec_gaps_eq. unfold FSEC.detect. fold d.
  rewrite A, I.
  destruct (PyStr.len d <? 100), (PyStr.len d <=? 100);
    detector_cases; settle.
Qed.

(** X12: the Scope Growing in Comments gap is reported exactly when the
    ticket has at least five comments of which at least three match the
    additive pattern; the gap costs 10 points of requirements. *)
Theorem scope_gap_needs_five_comments
  (client : Jira) (issue_key : str) :
  let r := Standard.analyze client issue_key in
  let comments := comments_of client issue_key in
  let additions :=
    List.length (filter (Re.found true Standard.additive_pattern) comments) in
  (has_gap "Scope Growing in Comments" (Standard.gaps r) = true
   <-> (5 <= List.length comments)%nat /\ (3 <= additions)%nat)
  /\ (has_gap "Scope Growing in Comments" (Standard.gaps r) = true ->
      Standard.requirements_score r <= 60).
Proof.
  intros r comments additions.
  assert (S : Standard._check_scope_creep comments
              = if (List.length comments <? 5)%nat then []
                else if (3 <=? additions)%nat
                     then [Standard.scope_gap additions] else [])
    by reflexivity.
  assert (E : has_gap "Scope Growing in Comments" (Standard.gaps r)
              = negb (List.length comments <? 5)%nat
                && (3 <=? additions)%nat
              /\ (has_gap "Scope Growing in Comments" (Standard.gaps r)
                  = true ->
                  (Standard.requirements_score r <=? 60) = true)).
  { subst r. open_standard. fold (comments_of client issue_key).
    fold comments. rewrite S.
    destruct (List.length comments <? 5)%nat, (3 <=? additions)%nat;
      detector_cases; settle. }
  destruct E as [E L]. split.
  - rewrite E, andb_true_iff, negb_true_iff, Nat.ltb_ge, Nat.leb_le.
    tauto.
  - intros H. apply Z.leb_le, L, H.
Qed.

(** X13: issue types the detectors exempt.  A bug, incident or hotfix (in
    any case the lowering maps to these) is never reported for missing
    acceptance criteria or technical context; a spike or research ticket is
    never reported for missing test scenarios, nor for limited AWS context
    in the FSEC profile. *)
Theorem exempt_issue_types
  (client : Jira) (issue_key : str) :
  let r := Standard.analyze client issue_key in
  let q := FSEC.analyze client issue_key in
  let type_lower := str_lower (type_of client issue_key) in
  (PyStr.mem type_lower (strs ["bug"; "incident"; "hotfix"]) = true ->
   has_gap "Missing Acceptance Criteria" (Standard.gaps r) = false
   /\ has_gap "No Technical Context" (Standard.gaps r) = false
   /\ 12 <= Standard.technical_score r)
  /\ (PyStr.mem type_lower (strs ["spike"; "research"]) = true ->
      has_gap "No Test Scenarios" (Standard.gaps r) = false
      /\ Standard.testing_score r = 5
      /\ has_gap "Limited AWS Context" (FSEC.gaps q) = false).
Proof.
  intros r q type_lower. split; intros H.
  - assert (A : Standard._check_acceptance_criteria
                  (description_of client issue_key)
                  (type_of client issue_key) = []).
    { unfold Standard._check_acceptance_criteria. fold type_lower.
      rewrite H. destruct (negb _); reflexivity. }
    assert (T : Standard._check_technical_context
                  (description_of client issue_key)
                  (type_of client issue_key) = [])
      by (unfold Standard._check_technical_context; fold type_lower;
          rewrite H; reflexivity).
    subst r. open_standard.
    fold (description_of client issue_key) (type_of client issue_key).
    rewrite A, T. detector_cases; settle.
  - assert (T : Standard._check_test_scenarios
                  (all_text_of client issue_key)
                  (type_of client issue_key) = []).
    { unfold Standard._check_test_scenarios. fold type_lower.
      rewrite H. destruct (negb _); reflexivity. }
    assert (A : FSEC._check_aws_context (description_of client issue_key)
                  (type_of client issue_key) = [])
      by (unfold FSEC._check_aws_context; fold type_lower;
          rewrite H; reflexivity).
    split; [|split].
    + subst r. rewrite standard_gaps_eq. unfold Standard.detect.
      rewrite T. detector_cases; settle.
    + change (Standard.testing_score r)
        with (Standard._calculate_testing_score (Standard.gaps r)).
      subst r. rewrite standard_gaps_eq. unfold Standard.detect.
      rewrite T. detector_cases; settle.
    + subst q. rewrite fsec_gaps_eq. unfold FSEC.detect.
      rewrite A. detector_cases; settle.
Qed.

(** X14: negative controls of the security detectors.  In the general
    profile a text without security keyword, and a text that mentions
    security or compliance, keeps the full context score of 5; in the FSEC
    profile a text without security keyword, a text that mentions security
    or iam policy, and any text of 300 characters or more is never reported
    for security implications. *)
Theorem security_gap_negative_controls
  (client : Jira) (issue_key : str) :
  let r := Standard.analyze client issue_key in
  let q := FSEC.analyze client issue_key in
  let text := all_text_of client issue_key in
  let text_lower := str_lower text in
  (PyStr.any_in Standard.SECURITY_KEYWORDS text_lower = false
   \/ PyStr.contains "security" text_lower = true
   \/ PyStr.contains "compliance" text_lower = true ->
   has_gap "Security Review Needed" (Standard.gaps r) = false
   /\ Standard.context_score r = 5)
  /\ (PyStr.any_in FSEC.SECURITY_KEYWORDS text_lower = false
      \/ PyStr.contains "security" text_lower = true
      \/ PyStr.contains "iam policy" text_lower = true
      \/ 300 <= PyStr.len text ->
      has_gap "Security Implications" (FSEC.gaps q) = false).
Proof.
  intros r q text text_lower. split; intros H.
  - assert (S : Standard._check_security_context text = []).
    { unfold Standard._check_security_context. fold text_lower.
      destruct H as [-> | [-> | ->]]; rewrite ?orb_true_r;
        try reflexivity;
        destruct (PyStr.any_in _ _); reflexivity. }
    split.
    + subst r. rewrite standard_gaps_eq. unfold Standard.detect.
      fold text. rewrite S. detector_cases; settle.
    + change (Standard.context_score r)
        with (Standard._calculate_context_score (Standard.gaps r)).
      subst r. rewrite standard_gaps_eq. unfold Standard.detect.
      fold text. rewrite S. detector_cases; settle.
  - assert (S : FSEC._check_security_context text = []).
    { unfold FSEC._check_security_context. fold text_lower.
      destruct H as [-> | [-> | [-> | H]]]; rewrite ?orb_true_r;
        try reflexivity;
        try (destruct (PyStr.any_in _ _); reflexivity).
      assert (L : (PyStr.len text <? 300) = false)
        by (apply Z.ltb_ge; exact H).
      rewrite L, andb_false_r. reflexivity. }
    subst q. rewrite fsec_gaps_eq. unfold FSEC.detect.
    fold text. rewrite S. detector_cases; settle.
Qed.

End Thresholds.

Lemma fsec_length_thresholds_differ_witness :
  PyStr.len (description_of (tracker hundred_task) "K-1") = 100
  /\ has_gap "Limited AWS Context"
       (FSEC.gaps (FSEC.analyze (U := ascii_tables) (tracker hundred_task)
                     "K-1"))
     = false
  /\ has_gap "Unclear Implementation"
       (FSEC.gaps (FSEC.analyze (U := ascii_tables) (tracker hundred_task)
                     "K-1"))
     = true.
Proof.
  split; [vm_compute; reflexivity|].
  destruct (@fsec_length_thresholds_differ ascii_tables
              (tracker hundred_task) "K-1") as [A I];
    try (vm_compute; reflexivity).
  rewrite A, I. split; vm_compute; reflexivity.
Defined.

Lemma scope_gap_needs_five_comments_witness :
  has_gap "Scope Growing in Comments"
    (Standard.gaps
       (Standard.analyze (U := ascii_tables) (tracker growing_story) "K-1"))
  = true
  /\ Standard.requirements_score
       (Standard.analyze (U := ascii_tables) (tracker growing_story) "K-1")
     <= 60.
Proof.
  assert (H : has_gap "Scope Growing in Comments"
                (Standard.gaps
                   (Standard.analyze (U := ascii_tables)
                      (tracker growing_story) "K-1")) = true)
    by (vm_compute; reflexivity).
  split; [exact H|].
  destruct (@scope_gap_needs_five_comments ascii_tables
              (tracker growing_story) "K-1") as [_ T].
  exact (T H).
Defined.

Lemma exempt_issue_types_witness :
  PyStr.mem (@str_lower ascii_tables (type_of (tracker crash_bug) "K-1"))
    (strs ["bug"; "incident"; "hotfix"]) = true
  /\ has_gap "Missing Acceptance Criteria"
       (Standard.gaps
          (Standard.analyze (U := ascii_tables) (tracker crash_bug) "K-1"))
     = false.
Proof.
  assert (H : PyStr.mem
                (@str_lower ascii_tables (type_of (tracker crash_bug) "K-1"))
                (strs ["bug"; "incident"; "hotfix"]) = true)
    by (vm_compute; reflexivity).
  split; [exact H|].
  destruct (@exempt_issue_types ascii_tables (tracker crash_bug) "K-1")
    as [T _].
  apply (T H).
Defined.

Lemma security_gap_negative_controls_witness :
  PyStr.any_in Standard.SECURITY_KEYWORDS
    (@str_lower ascii_tables (all_text_of (tracker groomed_story) "K-1"))
  = false
  /\ Standard.context_score
       (Standard.analyze (U := ascii_tables) (tracker groomed_story) "K-1")
     = 5.
Proof.
  assert (H : PyStr.any_in Standard.SECURITY_KEYWORDS
                (@str_lower ascii_tables
                   (all_text_of (tracker groomed_story) "K-1")) = false)
    by (vm_compute; reflexivity).
  split; [exact H|].
  destruct (@security_gap_negative_controls ascii_tables
              (tracker groomed_story) "K-1") as [T _].
  apply T. left. exact H.
Defined.

(** ** What the printed report says, against the verdict *)

Section Banners.
Context {U : UnicodeData}.



(** X17: the advice of a report that is not ready names every HIGH gap of
    the report: the cut [high_gaps[:3]] never drops one, in either
    profile. *)
Theorem recommendation_names_every_high_gap
  (client : Jira) (issue_key : str) (g : Gap) :
  let r := Standard.analyze client issue_key in
  let q := FSEC.analyze client issue_key in
  has_severity "HIGH" g = true ->
  (Standard.ready_for_pointing r = false ->
   In g (Standard.gaps r) ->
   In (lit "   " ++ StandardCLI.dot ++ lit " " ++ title g)
     (StandardCLI.recommendation r))
  /\ (FSEC.ready_for_pointing q = false ->
      In g (FSEC.gaps q) ->
      In (lit "   " ++ FSECCLI.dot ++ lit " " ++ title g)
        (FSECCLI.recommendation q)).
Proof.
  intros r q Hg. split; intros Hr Hin.
  - assert (F : firstn 3 (filter (has_severity "HIGH") (Standard.gaps r))
                = filter (has_severity "HIGH") (Standard.gaps r))
      by (subst r; open_standard; detector_cases; settle).
    assert (I : In g (filter (has_severity "HIGH") (Standard.gaps r)))
      by (apply filter_In; auto).
    unfold StandardCLI.recommendation. rewrite Hr, F.
    destruct (filter (has_severity "HIGH") (Standard.gaps r)) as [|h hs] eqn:E;
      [contradiction|].
    cbn [nonempty]. right. apply in_flat_map. exists g.
    split; [exact I | left; reflexivity].
  - assert (F : firstn 3 (filter (has_severity "HIGH") (FSEC.gaps q))
                = filter (has_severity "HIGH") (FSEC.gaps q))
      by (subst q; open_fsec; detector_cases; settle).
    assert (I : In g (filter (has_severity "HIGH") (FSEC.gaps q)))
      by (apply filter_In; auto).
    unfold FSECCLI.recommendation. rewrite Hr, F.
    destruct (filter (has_severity "HIGH") (FSEC.gaps q)) as [|h hs] eqn:E;
      [contradiction|].
    cbn [nonempty]. right. apply in_flat_map. exists g.
    split; [exact I | left; reflexivity].
Qed.

End Banners.



Lemma recommendation_names_every_high_gap_witness :
  has_severity "HIGH" Standard.missing_ac_gap = true
  /\ In (lit "   " ++ StandardCLI.dot ++ lit " "
         ++ title Standard.missing_ac_gap)
       (StandardCLI.recommendation
          (Standard.analyze (U := ascii_tables)
             (tracker criteria_free_story) "K-1")).
Proof.
  assert (H : has_severity "HIGH" Standard.missing_ac_gap = true)
    by (vm_compute; reflexivity).
  split; [exact H|].
  destruct (@recommendation_names_every_high_gap ascii_tables
              (tracker criteria_free_story) "K-1" Standard.missing_ac_gap H)
    as [T _].
  apply T; vm_compute; auto.
Defined.

(** ** The verbose flag *)






(** ** The structured output *)

Lemma map_injective (A B : Type) (f : A -> B) :
  (forall x y, f x = f y -> x = y) ->
  forall l m, map f l = map f m -> l = m.
Proof.
  intros H l. induction l as [|x l IH]; intros [|y m] E;
    try discriminate; [reflexivity|].
  simpl in E. injection E as E1 E2. f_equal; auto.
Qed.

Lemma map_JStr_injective (l m : list str) :
  map JStr l = map JStr m -> l = m.
Proof. apply map_injective. intros x y E. injection E as E. exact E. Qed.

Lemma gap_to_json_injective (g h : Gap) :
  gap_to_json g = gap_to_json h -> g = h.
Proof.
  destruct g, h. unfold gap_to_json. cbn [category severity title
    description questions actions].
  intros E. injection E as -> -> -> -> Eq Ea.
  apply map_JStr_injective in Eq, Ea. subst. reflexivity.
Qed.

(** X19: the dictionary printed by --json loses nothing of the report: two
    reports with the same dictionary are the same report, in both
    scripts. *)
Theorem json_output_determines_the_report
  (r r' : Standard.ReadinessReport) (q q' : FSEC.ReadinessReport) :
  (StandardCLI.to_json r = StandardCLI.to_json r' -> r = r')
  /\ (FSECCLI.to_json q = FSECCLI.to_json q' -> q = q').
Proof.
  split.
  - destruct r, r'. unfold StandardCLI.to_json.
    cbn [Standard.issue_key Standard.summary Standard.issue_type
         Standard.status Standard.requirements_score
         Standard.technical_score Standard.testing_score
         Standard.context_score Standard.total_score Standard.gaps
         Standard.strengths Standard.ready_for_pointing].
    intros E. injection E as -> -> -> -> -> -> -> -> -> -> Eg Es.
    apply (map_injective _ gap_to_json_injective) in Eg.
    apply map_JStr_injective in Es. subst. reflexivity.
  - destruct q, q'. unfold FSECCLI.to_json.
    cbn [FSEC.issue_key FSEC.summary FSEC.issue_type FSEC.status FSEC.mode
         FSEC.requirements_score FSEC.technical_score FSEC.testing_score
         FSEC.context_score FSEC.total_score FSEC.gaps FSEC.strengths
         FSEC.ready_for_pointing].
    intros E. injection E as -> -> -> -> -> -> -> -> -> -> -> Eg Es.
    apply (map_injective _ gap_to_json_injective) in Eg.
    apply map_JStr_injective in Es. subst. reflexivity.
Qed.

Lemma json_output_determines_the_report_witness :
  StandardCLI.to_json
    (Standard.analyze (U := ascii_tables) (tracker bare_story) "K-1")
  = StandardCLI.to_json
      (Standard.analyze (U := ascii_tables)
         (fun key => if PyStr.eqb key "K-1" then bare_story else bare_task)
         "K-1")
  /\ Standard.analyze (U := ascii_tables) (tracker bare_story) "K-1"
     = Standard.analyze (U := ascii_tables)
         (fun key => if PyStr.eqb key "K-1" then bare_story else bare_task)
         "K-1".
Proof.
  assert (H : StandardCLI.to_json
                (Standard.analyze (U := ascii_tables) (tracker bare_story)
                   "K-1")
              = StandardCLI.to_json
                  (Standard.analyze (U := ascii_tables)
                     (fun key => if PyStr.eqb key "K-1" then bare_story
                                 else bare_task) "K-1"))
    by reflexivity.
  split; [exact H|].
  destruct (json_output_determines_the_report
              (Standard.analyze (U := ascii_tables) (tracker bare_story)
                 "K-1")
              (Standard.analyze (U := ascii_tables)
                 (fun key => if PyStr.eqb key "K-1" then bare_story
                             else bare_task) "K-1")
              (FSEC.analyze (U := ascii_tables) (tracker bare_task) "K-1")
              (FSEC.analyze (U := ascii_tables) (tracker bare_task) "K-1"))
    as [T _].
  exact (T H).
Defined.

(** ** Exit status *)

Section ExitStatus.
Context {U : UnicodeData}.
Variable env : Env.
Variable server : Server.
Variable issue_key : str.
Variable verbose json_output : bool.



End ExitStatus.



(** ** Markers anywhere in the ticket *)

(** A substring of the summary, of the description or of a comment is a
    substring of the combined text. *)
Lemma contains_anywhere (sub part summary d : str) (comments : list str) :
  part = summary \/ part = d \/ In part comments ->
  PyStr.contains sub part = true ->
  PyStr.contains sub (text_of summary d comments) = true.
Proof.
  intros [-> | [-> | Hin]] H.
  - unfold text_of. apply contains_app_l, H.
  - apply contains_text_of, H.
  - unfold text_of. do 4 apply contains_app_r.
    apply (contains_join _ _ _ _ Hin H).
Qed.

Section Markers.
Context {U : UnicodeData}.

Lemma standard_marker_fires (marker text : str) :
  In marker Standard.INCOMPLETE_MARKERS ->
  PyStr.contains marker text = true ->
  exists ex, Standard._check_vague_language text = [Standard.vague_gap ex].
Proof.
  intros Hm Hc. unfold Standard._check_vague_language.
  assert (I : In marker (Standard.found_incomplete text))
    by (apply filter_In; auto).
  destruct (Standard.found_incomplete text); [contradiction|].
  cbn [nonempty]. rewrite orb_true_r. eauto.
Qed.

Lemma fsec_marker_fires (marker text : str) :
  In marker FSEC.CRITICAL_VAGUE ->
  PyStr.contains marker text = true ->
  exists fc, FSEC._check_critical_ambiguity text = [FSEC.critical_gap fc].
Proof.
  intros Hm Hc. unfold FSEC._check_critical_ambiguity.
  assert (I : exists x, In x (FSEC.found_critical text)).
  { pose proof (context_search _ _ Hc) as M.
    change (Standard.context_pattern marker)
      with (FSEC.context_pattern marker) in M.
    destruct (Re.search true (FSEC.context_pattern marker) text) as [m|] eqn:E;
      [|contradiction].
    exists (quoted (strip m)). unfold FSEC.found_critical.
    apply in_flat_map. exists marker. split; [exact Hm|].
    rewrite Hc, E. left. reflexivity. }
  destruct I as [x I].
  destruct (FSEC.found_critical text); [contradiction|].
  cbn [nonempty]. eauto.
Qed.

(** X22: an incompleteness marker anywhere in the ticket is reported.  If
    the summary, the description or any comment contains one of TBD, TODO,
    ???, unclear and ..., the general profile reports Vague or Ambiguous
    Requirements and the ticket is not ready; if it contains one of TBD,
    TODO, ???, unclear and figure it out, the FSEC profile reports Critical
    Ambiguity. *)
Theorem marker_anywhere_is_reported
  (client : Jira) (issue_key : str) (marker part : str) :
  let r := Standard.analyze client issue_key in
  let q := FSEC.analyze client issue_key in
  part = summary_of client issue_key
  \/ part = description_of client issue_key
  \/ In part (comments_of client issue_key) ->
  PyStr.contains marker part = true ->
  (In marker Standard.INCOMPLETE_MARKERS ->
   has_gap "Vague or Ambiguous Requirements" (Standard.gaps r) = true
   /\ Standard.ready_for_pointing r = false)
  /\ (In marker FSEC.CRITICAL_VAGUE ->
      has_gap "Critical Ambiguity" (FSEC.gaps q) = true).
Proof.
  intros r q Hp Hc.
  assert (Ht : PyStr.contains marker (all_text_of client issue_key) = true)
    by (unfold all_text_of; eapply contains_anywhere; eassumption).
  split; intros Hm.
  - destruct (@standard_marker_fires marker _ Hm Ht) as [ex E].
    subst r. open_standard.
    change (text_of _ _ _) with (all_text_of client issue_key).
    rewrite E. detector_cases; settle.
  - destruct (@fsec_marker_fires marker _ Hm Ht) as [fc E].
    subst q. open_fsec.
    change (text_of _ _ _) with (all_text_of client issue_key).
    rewrite E. detector_cases; settle.
Qed.

End Markers.

Lemma marker_anywhere_is_reported_witness :
  In (lit "Header format is TODO") (comments_of (tracker commented_story) "K-1")
  /\ PyStr.contains "TODO" "Header format is TODO" = true
  /\ has_gap "Vague or Ambiguous Requirements"
       (Standard.gaps
          (Standard.analyze (U := ascii_tables) (tracker commented_story)
             "K-1")) = true
  /\ Standard.ready_for_pointing
       (Standard.analyze (U := ascii_tables) (tracker commented_story) "K-1")
     = false.
Proof.
  assert (A : In (lit "Header format is TODO")
                (comments_of (tracker commented_story) "K-1"))
    by (right; left; reflexivity).
  assert (B : PyStr.contains "TODO" "Header format is TODO" = true)
    by reflexivity.
  split; [exact A|]. split; [exact B|].
  destruct (@marker_anywhere_is_reported ascii_tables
              (tracker commented_story) "K-1" "TODO" "Header format is TODO"
              (or_intror (or_intror A)) B) as [T _].
  apply T. right. left. reflexivity.
Defined.
